(** * Agile vs. waterfall calculators

    A shallow embedding of [agile_calculator.py] and
    [waterfall_calculator.py], and the properties of their
    specification.

    Python numbers are modelled as they are at run time: an [int] is an
    unbounded integer ([Z]), a [float] is an IEEE-754 binary64 value
    ([spec_float] with precision 53 and maximal exponent 1024, the
    Standard Library's executable specification of floating point).
    Exceptions are values of type [exn]; a computation returns a
    [result].  Code that changes an object or prints is a function from
    the state before to the outcome and the state after. *)

From Stdlib Require Import ZArith QArith Qabs Qpower Lia Lqa String Ascii List.
From Stdlib Require Import Floats.SpecFloat.
From stdpp Require Import gmap strings.

Local Open Scope Z_scope.

(** ** Exceptions and results *)

Inductive exn : Type :=
| ValueError (msg : string)
| RuntimeError (msg : string)
| AssertionError (msg : string)
| OverflowError (msg : string)
| ZeroDivisionError (msg : string)
| KeyError (key : string)
| SystemExit (code : Z).

(** The class of an exception, which is what an [except] clause tests. *)
Inductive exn_class : Type :=
| CValueError | CRuntimeError | CAssertionError | COverflowError
| CZeroDivisionError | CKeyError | CSystemExit.

Definition class_of (e : exn) : exn_class :=
  match e with
  | ValueError _ => CValueError
  | RuntimeError _ => CRuntimeError
  | AssertionError _ => CAssertionError
  | OverflowError _ => COverflowError
  | ZeroDivisionError _ => CZeroDivisionError
  | KeyError _ => CKeyError
  | SystemExit _ => CSystemExit
  end.

Inductive result (A : Type) : Type :=
| Ok (a : A)
| Raise (e : exn).
Arguments Ok {A} a.
Arguments Raise {A} e.

#[global] Instance result_ret : MRet result := fun A a => Ok a.
#[global] Instance result_bind : MBind result := fun A B f r =>
  match r with
  | Ok a => f a
  | Raise e => Raise e
  end.

(** Computations over a state [St]: the outcome and the state after. *)
Definition M (St A : Type) : Type := St -> result A * St.

#[global] Instance M_ret {St} : MRet (M St) := fun A a s => (Ok a, s).
#[global] Instance M_bind {St} : MBind (M St) := fun A B f m s =>
  match m s with
  | (Ok a, s') => f a s'
  | (Raise e, s') => (Raise e, s')
  end.

Definition raise {St A} (e : exn) : M St A := fun s => (Raise e, s).
Definition lift {St A} (r : result A) : M St A := fun s => (r, s).
Definition gets {St A} (f : St -> A) : M St A := fun s => (Ok (f s), s).

(** [assert b]. *)
Definition assert (b : bool) : result unit :=
  if b then Ok tt else Raise (AssertionError "").

(** [for x in xs: body]. *)
Fixpoint for_each {St A} (xs : list A) (body : A -> M St unit) : M St unit :=
  match xs with
  | [] => mret tt
  | x :: xs' => body x;; for_each xs' body
  end.

(** ** Python numbers *)

Definition prec : Z := 53.
Definition emax : Z := 1024.

Inductive value : Type :=
| VInt (z : Z)
| VFloat (f : spec_float).

(** [float("inf")]. *)
Definition inf : spec_float := S754_infinity false.

(** The exact value of a finite float, [(-1)^s * m * 2^e]. *)
Definition F2Q (s : bool) (m : positive) (e : Z) : Q :=
  (inject_Z (cond_Zopp s (Zpos m)) * 2 ^ e)%Q.

(** Numbers as extended rationals, on which Python compares them. *)
Inductive xreal : Type :=
| XNaN
| XInf (neg : bool)
| XFin (q : Q).

Definition SF2X (f : spec_float) : xreal :=
  match f with
  | S754_zero _ => XFin 0
  | S754_infinity s => XInf s
  | S754_nan => XNaN
  | S754_finite s m e => XFin (F2Q s m e)
  end.

Definition value2X (v : value) : xreal :=
  match v with
  | VInt z => XFin (inject_Z z)
  | VFloat f => SF2X f
  end.

Definition Qlt_bool (p q : Q) : bool := negb (Qle_bool q p).

(** [a == b] and [a < b] on numbers: by exact value, also between an
    [int] and a [float]; every comparison with a NaN is false. *)
Definition py_eq (a b : value) : bool :=
  match value2X a, value2X b with
  | XFin p, XFin q => Qeq_bool p q
  | XInf s, XInf t => Bool.eqb s t
  | _, _ => false
  end.

Definition py_ne (a b : value) : bool := negb (py_eq a b).

Definition py_lt (a b : value) : bool :=
  match value2X a, value2X b with
  | XFin p, XFin q => Qlt_bool p q
  | XInf true, (XFin _ | XInf false) => true
  | XFin _, XInf false => true
  | _, _ => false
  end.

(** Conversion of an [int] to a [float], rounding to nearest even; it
    raises [OverflowError] when the result would not be finite. *)
Definition float_of_int (z : Z) : result spec_float :=
  match binary_normalize prec emax z 0 false with
  | S754_infinity _ => Raise (OverflowError "int too large to convert to float")
  | f => Ok f
  end.

Definition to_float (v : value) : result spec_float :=
  match v with
  | VInt z => float_of_int z
  | VFloat f => Ok f
  end.

Definition Z2SF (z : Z) : spec_float :=
  match z with
  | Z0 => S754_zero false
  | Zpos p => S754_finite false p 0
  | Zneg p => S754_finite true p 0
  end.

(** [a + b], [a - b], [a * b]: exact on two [int]s, binary64 arithmetic
    as soon as one operand is a [float]. *)
Definition py_add (a b : value) : result value :=
  match a, b with
  | VInt x, VInt y => Ok (VInt (x + y))
  | _, _ => x ← to_float a; y ← to_float b; Ok (VFloat (SFadd prec emax x y))
  end.

Definition py_sub (a b : value) : result value :=
  match a, b with
  | VInt x, VInt y => Ok (VInt (x - y))
  | _, _ => x ← to_float a; y ← to_float b; Ok (VFloat (SFsub prec emax x y))
  end.

Definition py_mul (a b : value) : result value :=
  match a, b with
  | VInt x, VInt y => Ok (VInt (x * y))
  | _, _ => x ← to_float a; y ← to_float b; Ok (VFloat (SFmul prec emax x y))
  end.

(** [a / b], true division: the quotient of two [int]s is rounded once,
    a zero divisor raises [ZeroDivisionError]. *)
Definition py_truediv (a b : value) : result value :=
  match a, b with
  | VInt x, VInt y =>
      if y =? 0 then Raise (ZeroDivisionError "division by zero")
      else match SFdiv prec emax (Z2SF x) (Z2SF y) with
           | S754_infinity _ =>
               Raise (OverflowError "integer division result too large for a float")
           | f => Ok (VFloat f)
           end
  | _, _ =>
      x ← to_float a; y ← to_float b;
      match y with
      | S754_zero _ => Raise (ZeroDivisionError "float division by zero")
      | _ => Ok (VFloat (SFdiv prec emax x y))
      end
  end.

Definition py_abs (a : value) : value :=
  match a with
  | VInt x => VInt (Z.abs x)
  | VFloat f => VFloat (SFabs f)
  end.

(** The literal [1e-9], the double nearest to 10^-9. *)
Definition lit_1e_9 : spec_float := S754_finite false 4835703278458517 (-82).

(** ** Dictionaries with string keys, in insertion order *)

Definition dict (V : Type) : Type := list (string * V).

Fixpoint dict_get {V} (d : dict V) (k : string) : option V :=
  match d with
  | [] => None
  | (k', v) :: d' => if String.eqb k' k then Some v else dict_get d' k
  end.

(** [d[k]], which raises [KeyError] on a missing key. *)
Definition dict_getitem {V} (d : dict V) (k : string) : result V :=
  match dict_get d k with
  | Some v => Ok v
  | None => Raise (KeyError k)
  end.

(** Truth value of [d.get(k)]: a missing key gives [None], which is false. *)
Definition truthy (o : option bool) : bool :=
  match o with
  | Some b => b
  | None => false
  end.

(** ** Standard output *)

(** One call of [print]: a text, or a number printed by its [repr]. *)
Inductive line : Type :=
| Text (s : string)
| Num (v : value).

Definition stdout : Type := list line.

Definition print (l : line) : M stdout unit := fun out => (Ok tt, out ++ [l]).

Definition nl : string := String (ascii_of_nat 10) EmptyString.

Fixpoint unlines (ls : list string) : string :=
  match ls with
  | [] => EmptyString
  | [l] => l
  | l :: ls' => l +:+ nl +:+ unlines ls'
  end.

(** The exit status of the interpreter: 0 at the end of the script, the
    argument of [sys.exit], 1 after an uncaught exception. *)
Definition exit_status {A} (r : result A) : Z :=
  match r with
  | Ok _ => 0
  | Raise (SystemExit n) => n
  | Raise _ => 1
  end.

(** ** Texts

    The text of an argument is the string of its bytes.  Python decodes
    them as UTF-8, a byte that is not part of a well-formed sequence
    becoming the lone surrogate U+DC00 + byte; [utf8_decode] gives the
    characters of a text, each with the bytes it is written with.  The
    three tables are those of the Unicode database of Python 3.11
    (Unicode 14.0), above U+007F. *)

Definition byte (c : ascii) : N := N_of_ascii c.

Definition is_cont (c : ascii) : bool := ((128 <=? byte c) && (byte c <? 192))%N.

(** The character at the head of a text and the number of its bytes,
    when the head is a well-formed sequence. *)
Definition utf8_head (s : list ascii) : option (N * nat) :=
  match s with
  | [] => None
  | b0 :: r =>
      let n0 := byte b0 in
      if (n0 <? 128)%N then Some (n0, 1%nat)
      else if ((194 <=? n0) && (n0 <? 224))%N then
        match r with
        | b1 :: _ =>
            if is_cont b1 then Some (((n0 - 192) * 64 + (byte b1 - 128))%N, 2%nat)
            else None
        | _ => None
        end
      else if ((224 <=? n0) && (n0 <? 240))%N then
        match r with
        | b1 :: b2 :: _ =>
            let c := ((n0 - 224) * 4096 + (byte b1 - 128) * 64 + (byte b2 - 128))%N in
            if is_cont b1 && is_cont b2 && (2048 <=? c)%N
               && negb ((55296 <=? c) && (c <? 57344))%N
            then Some (c, 3%nat) else None
        | _ => None
        end
      else if ((240 <=? n0) && (n0 <? 245))%N then
        match r with
        | b1 :: b2 :: b3 :: _ =>
            let c := ((n0 - 240) * 262144 + (byte b1 - 128) * 4096
                      + (byte b2 - 128) * 64 + (byte b3 - 128))%N in
            if is_cont b1 && is_cont b2 && is_cont b3
               && (65536 <=? c)%N && (c <=? 1114111)%N
            then Some (c, 4%nat) else None
        | _ => None
        end
      else None
  end.

Fixpoint utf8_chars (fuel : nat) (s : list ascii) : list (N * list ascii) :=
  match fuel, s with
  | S fuel', b0 :: r =>
      match utf8_head s with
      | Some (c, k) => (c, firstn k s) :: utf8_chars fuel' (skipn k s)
      | None => ((56320 + byte b0)%N, [b0]) :: utf8_chars fuel' r
      end
  | _, _ => []
  end.

Definition utf8_decode (s : list ascii) : list (N * list ascii) :=
  utf8_chars (length s) s.

(** The whitespace characters above U+007F. *)
Definition unicode_spaces : list N :=
  [ 133; 160; 5760; 8192; 8193; 8194; 8195; 8196; 8197; 8198; 8199; 8200; 8201; 8202; 8232; 8233; 8239; 8287; 12288 ]%N.

(** The zeros of the decimal digits above U+007F; the nine characters
    after each are its digits 1 to 9. *)
Definition decimal_zeros : list N :=
  [
    1632; 1776; 1984; 2406; 2534; 2662; 2790; 2918;
    3046; 3174; 3302; 3430; 3558; 3664; 3792; 3872;
    4160; 4240; 6112; 6160; 6470; 6608; 6784; 6800;
    6992; 7088; 7232; 7248; 42528; 43216; 43264; 43472;
    43504; 43600; 44016; 65296; 66720; 68912; 69734; 69872;
    69942; 70096; 70384; 70736; 70864; 71248; 71360; 71472;
    71904; 72016; 72784; 73040; 73120; 92768; 92864; 93008;
    120782; 120792; 120802; 120812; 120822; 123200; 123632; 125264;
    130032
  ]%N.

(** The ranges of printable characters above U+007F, both ends included. *)
Definition printable_ranges : list (N * N) :=
  [
    (161, 172); (174, 887); (890, 895); (900, 906); (908, 908);
    (910, 929); (931, 1327); (1329, 1366); (1369, 1418); (1421, 1423);
    (1425, 1479); (1488, 1514); (1519, 1524); (1542, 1563); (1565, 1756);
    (1758, 1805); (1808, 1866); (1869, 1969); (1984, 2042); (2045, 2093);
    (2096, 2110); (2112, 2139); (2142, 2142); (2144, 2154); (2160, 2190);
    (2200, 2273); (2275, 2435); (2437, 2444); (2447, 2448); (2451, 2472);
    (2474, 2480); (2482, 2482); (2486, 2489); (2492, 2500); (2503, 2504);
    (2507, 2510); (2519, 2519); (2524, 2525); (2527, 2531); (2534, 2558);
    (2561, 2563); (2565, 2570); (2575, 2576); (2579, 2600); (2602, 2608);
    (2610, 2611); (2613, 2614); (2616, 2617); (2620, 2620); (2622, 2626);
    (2631, 2632); (2635, 2637); (2641, 2641); (2649, 2652); (2654, 2654);
    (2662, 2678); (2689, 2691); (2693, 2701); (2703, 2705); (2707, 2728);
    (2730, 2736); (2738, 2739); (2741, 2745); (2748, 2757); (2759, 2761);
    (2763, 2765); (2768, 2768); (2784, 2787); (2790, 2801); (2809, 2815);
    (2817, 2819); (2821, 2828); (2831, 2832); (2835, 2856); (2858, 2864);
    (2866, 2867); (2869, 2873); (2876, 2884); (2887, 2888); (2891, 2893);
    (2901, 2903); (2908, 2909); (2911, 2915); (2918, 2935); (2946, 2947);
    (2949, 2954); (2958, 2960); (2962, 2965); (2969, 2970); (2972, 2972);
    (2974, 2975); (2979, 2980); (2984, 2986); (2990, 3001); (3006, 3010);
    (3014, 3016); (3018, 3021); (3024, 3024); (3031, 3031); (3046, 3066);
    (3072, 3084); (3086, 3088); (3090, 3112); (3114, 3129); (3132, 3140);
    (3142, 3144); (3146, 3149); (3157, 3158); (3160, 3162); (3165, 3165);
    (3168, 3171); (3174, 3183); (3191, 3212); (3214, 3216); (3218, 3240);
    (3242, 3251); (3253, 3257); (3260, 3268); (3270, 3272); (3274, 3277);
    (3285, 3286); (3293, 3294); (3296, 3299); (3302, 3311); (3313, 3314);
    (3328, 3340); (3342, 3344); (3346, 3396); (3398, 3400); (3402, 3407);
    (3412, 3427); (3430, 3455); (3457, 3459); (3461, 3478); (3482, 3505);
    (3507, 3515); (3517, 3517); (3520, 3526); (3530, 3530); (3535, 3540);
    (3542, 3542); (3544, 3551); (3558, 3567); (3570, 3572); (3585, 3642);
    (3647, 3675); (3713, 3714); (3716, 3716); (3718, 3722); (3724, 3747);
    (3749, 3749); (3751, 3773); (3776, 3780); (3782, 3782); (3784, 3789);
    (3792, 3801); (3804, 3807); (3840, 3911); (3913, 3948); (3953, 3991);
    (3993, 4028); (4030, 4044); (4046, 4058); (4096, 4293); (4295, 4295);
    (4301, 4301); (4304, 4680); (4682, 4685); (4688, 4694); (4696, 4696);
    (4698, 4701); (4704, 4744); (4746, 4749); (4752, 4784); (4786, 4789);
    (4792, 4798); (4800, 4800); (4802, 4805); (4808, 4822); (4824, 4880);
    (4882, 4885); (4888, 4954); (4957, 4988); (4992, 5017); (5024, 5109);
    (5112, 5117); (5120, 5759); (5761, 5788); (5792, 5880); (5888, 5909);
    (5919, 5942); (5952, 5971); (5984, 5996); (5998, 6000); (6002, 6003);
    (6016, 6109); (6112, 6121); (6128, 6137); (6144, 6157); (6159, 6169);
    (6176, 6264); (6272, 6314); (6320, 6389); (6400, 6430); (6432, 6443);
    (6448, 6459); (6464, 6464); (6468, 6509); (6512, 6516); (6528, 6571);
    (6576, 6601); (6608, 6618); (6622, 6683); (6686, 6750); (6752, 6780);
    (6783, 6793); (6800, 6809); (6816, 6829); (6832, 6862); (6912, 6988);
    (6992, 7038); (7040, 7155); (7164, 7223); (7227, 7241); (7245, 7304);
    (7312, 7354); (7357, 7367); (7376, 7418); (7424, 7957); (7960, 7965);
    (7968, 8005); (8008, 8013); (8016, 8023); (8025, 8025); (8027, 8027);
    (8029, 8029); (8031, 8061); (8064, 8116); (8118, 8132); (8134, 8147);
    (8150, 8155); (8157, 8175); (8178, 8180); (8182, 8190); (8208, 8231);
    (8240, 8286); (8304, 8305); (8308, 8334); (8336, 8348); (8352, 8384);
    (8400, 8432); (8448, 8587); (8592, 9254); (9280, 9290); (9312, 11123);
    (11126, 11157); (11159, 11507); (11513, 11557); (11559, 11559); (11565, 11565);
    (11568, 11623); (11631, 11632); (11647, 11670); (11680, 11686); (11688, 11694);
    (11696, 11702); (11704, 11710); (11712, 11718); (11720, 11726); (11728, 11734);
    (11736, 11742); (11744, 11869); (11904, 11929); (11931, 12019); (12032, 12245);
    (12272, 12283); (12289, 12351); (12353, 12438); (12441, 12543); (12549, 12591);
    (12593, 12686); (12688, 12771); (12784, 12830); (12832, 42124); (42128, 42182);
    (42192, 42539); (42560, 42743); (42752, 42954); (42960, 42961); (42963, 42963);
    (42965, 42969); (42994, 43052); (43056, 43065); (43072, 43127); (43136, 43205);
    (43214, 43225); (43232, 43347); (43359, 43388); (43392, 43469); (43471, 43481);
    (43486, 43518); (43520, 43574); (43584, 43597); (43600, 43609); (43612, 43714);
    (43739, 43766); (43777, 43782); (43785, 43790); (43793, 43798); (43808, 43814);
    (43816, 43822); (43824, 43883); (43888, 44013); (44016, 44025); (44032, 55203);
    (55216, 55238); (55243, 55291); (63744, 64109); (64112, 64217); (64256, 64262);
    (64275, 64279); (64285, 64310); (64312, 64316); (64318, 64318); (64320, 64321);
    (64323, 64324); (64326, 64450); (64467, 64911); (64914, 64967); (64975, 64975);
    (65008, 65049); (65056, 65106); (65108, 65126); (65128, 65131); (65136, 65140);
    (65142, 65276); (65281, 65470); (65474, 65479); (65482, 65487); (65490, 65495);
    (65498, 65500); (65504, 65510); (65512, 65518); (65532, 65533); (65536, 65547);
    (65549, 65574); (65576, 65594); (65596, 65597); (65599, 65613); (65616, 65629);
    (65664, 65786); (65792, 65794); (65799, 65843); (65847, 65934); (65936, 65948);
    (65952, 65952); (66000, 66045); (66176, 66204); (66208, 66256); (66272, 66299);
    (66304, 66339); (66349, 66378); (66384, 66426); (66432, 66461); (66463, 66499);
    (66504, 66517); (66560, 66717); (66720, 66729); (66736, 66771); (66776, 66811);
    (66816, 66855); (66864, 66915); (66927, 66938); (66940, 66954); (66956, 66962);
    (66964, 66965); (66967, 66977); (66979, 66993); (66995, 67001); (67003, 67004);
    (67072, 67382); (67392, 67413); (67424, 67431); (67456, 67461); (67463, 67504);
    (67506, 67514); (67584, 67589); (67592, 67592); (67594, 67637); (67639, 67640);
    (67644, 67644); (67647, 67669); (67671, 67742); (67751, 67759); (67808, 67826);
    (67828, 67829); (67835, 67867); (67871, 67897); (67903, 67903); (67968, 68023);
    (68028, 68047); (68050, 68099); (68101, 68102); (68108, 68115); (68117, 68119);
    (68121, 68149); (68152, 68154); (68159, 68168); (68176, 68184); (68192, 68255);
    (68288, 68326); (68331, 68342); (68352, 68405); (68409, 68437); (68440, 68466);
    (68472, 68497); (68505, 68508); (68521, 68527); (68608, 68680); (68736, 68786);
    (68800, 68850); (68858, 68903); (68912, 68921); (69216, 69246); (69248, 69289);
    (69291, 69293); (69296, 69297); (69376, 69415); (69424, 69465); (69488, 69513);
    (69552, 69579); (69600, 69622); (69632, 69709); (69714, 69749); (69759, 69820);
    (69822, 69826); (69840, 69864); (69872, 69881); (69888, 69940); (69942, 69959);
    (69968, 70006); (70016, 70111); (70113, 70132); (70144, 70161); (70163, 70206);
    (70272, 70278); (70280, 70280); (70282, 70285); (70287, 70301); (70303, 70313);
    (70320, 70378); (70384, 70393); (70400, 70403); (70405, 70412); (70415, 70416);
    (70419, 70440); (70442, 70448); (70450, 70451); (70453, 70457); (70459, 70468);
    (70471, 70472); (70475, 70477); (70480, 70480); (70487, 70487); (70493, 70499);
    (70502, 70508); (70512, 70516); (70656, 70747); (70749, 70753); (70784, 70855);
    (70864, 70873); (71040, 71093); (71096, 71133); (71168, 71236); (71248, 71257);
    (71264, 71276); (71296, 71353); (71360, 71369); (71424, 71450); (71453, 71467);
    (71472, 71494); (71680, 71739); (71840, 71922); (71935, 71942); (71945, 71945);
    (71948, 71955); (71957, 71958); (71960, 71989); (71991, 71992); (71995, 72006);
    (72016, 72025); (72096, 72103); (72106, 72151); (72154, 72164); (72192, 72263);
    (72272, 72354); (72368, 72440); (72704, 72712); (72714, 72758); (72760, 72773);
    (72784, 72812); (72816, 72847); (72850, 72871); (72873, 72886); (72960, 72966);
    (72968, 72969); (72971, 73014); (73018, 73018); (73020, 73021); (73023, 73031);
    (73040, 73049); (73056, 73061); (73063, 73064); (73066, 73102); (73104, 73105);
    (73107, 73112); (73120, 73129); (73440, 73464); (73648, 73648); (73664, 73713);
    (73727, 74649); (74752, 74862); (74864, 74868); (74880, 75075); (77712, 77810);
    (77824, 78894); (82944, 83526); (92160, 92728); (92736, 92766); (92768, 92777);
    (92782, 92862); (92864, 92873); (92880, 92909); (92912, 92917); (92928, 92997);
    (93008, 93017); (93019, 93025); (93027, 93047); (93053, 93071); (93760, 93850);
    (93952, 94026); (94031, 94087); (94095, 94111); (94176, 94180); (94192, 94193);
    (94208, 100343); (100352, 101589); (101632, 101640); (110576, 110579); (110581, 110587);
    (110589, 110590); (110592, 110882); (110928, 110930); (110948, 110951); (110960, 111355);
    (113664, 113770); (113776, 113788); (113792, 113800); (113808, 113817); (113820, 113823);
    (118528, 118573); (118576, 118598); (118608, 118723); (118784, 119029); (119040, 119078);
    (119081, 119154); (119163, 119274); (119296, 119365); (119520, 119539); (119552, 119638);
    (119648, 119672); (119808, 119892); (119894, 119964); (119966, 119967); (119970, 119970);
    (119973, 119974); (119977, 119980); (119982, 119993); (119995, 119995); (119997, 120003);
    (120005, 120069); (120071, 120074); (120077, 120084); (120086, 120092); (120094, 120121);
    (120123, 120126); (120128, 120132); (120134, 120134); (120138, 120144); (120146, 120485);
    (120488, 120779); (120782, 121483); (121499, 121503); (121505, 121519); (122624, 122654);
    (122880, 122886); (122888, 122904); (122907, 122913); (122915, 122916); (122918, 122922);
    (123136, 123180); (123184, 123197); (123200, 123209); (123214, 123215); (123536, 123566);
    (123584, 123641); (123647, 123647); (124896, 124902); (124904, 124907); (124909, 124910);
    (124912, 124926); (124928, 125124); (125127, 125142); (125184, 125259); (125264, 125273);
    (125278, 125279); (126065, 126132); (126209, 126269); (126464, 126467); (126469, 126495);
    (126497, 126498); (126500, 126500); (126503, 126503); (126505, 126514); (126516, 126519);
    (126521, 126521); (126523, 126523); (126530, 126530); (126535, 126535); (126537, 126537);
    (126539, 126539); (126541, 126543); (126545, 126546); (126548, 126548); (126551, 126551);
    (126553, 126553); (126555, 126555); (126557, 126557); (126559, 126559); (126561, 126562);
    (126564, 126564); (126567, 126570); (126572, 126578); (126580, 126583); (126585, 126588);
    (126590, 126590); (126592, 126601); (126603, 126619); (126625, 126627); (126629, 126633);
    (126635, 126651); (126704, 126705); (126976, 127019); (127024, 127123); (127136, 127150);
    (127153, 127167); (127169, 127183); (127185, 127221); (127232, 127405); (127462, 127490);
    (127504, 127547); (127552, 127560); (127568, 127569); (127584, 127589); (127744, 128727);
    (128733, 128748); (128752, 128764); (128768, 128883); (128896, 128984); (128992, 129003);
    (129008, 129008); (129024, 129035); (129040, 129095); (129104, 129113); (129120, 129159);
    (129168, 129197); (129200, 129201); (129280, 129619); (129632, 129645); (129648, 129652);
    (129656, 129660); (129664, 129670); (129680, 129708); (129712, 129722); (129728, 129733);
    (129744, 129753); (129760, 129767); (129776, 129782); (129792, 129938); (129940, 129994);
    (130032, 130041); (131072, 173791); (173824, 177976); (177984, 178205); (178208, 183969);
    (183984, 191456); (194560, 195101); (196608, 201546); (917760, 917999)
  ]%N.

Definition unicode_space (c : N) : bool := existsb (N.eqb c) unicode_spaces.

Definition unicode_decimal (c : N) : option N :=
  match find (fun z => (z <=? c) && (c <? z + 10))%N decimal_zeros with
  | Some z => Some (c - z)%N
  | None => None
  end.

Definition unicode_printable (c : N) : bool :=
  existsb (fun r => (fst r <=? c) && (c <=? snd r))%N printable_ranges.

(** ** The builtin [float] on strings

    [py_float s] is [float(s)]: in a text that is not all ASCII, the
    whitespace characters above U+007F become spaces and the decimal
    digits their ASCII digits, and the text ends at the first other
    character above U+007E, replaced by a question mark; the text is
    then stripped of surrounding ASCII whitespace, underscores may stand
    between two digits, and what remains is a decimal literal, which is
    rounded once to the nearest double, or one of [inf], [infinity],
    [nan] in any case, with an optional sign.  [None] stands for the
    [ValueError] Python raises. *)

Definition is_space (c : ascii) : bool :=
  let n := nat_of_ascii c in
  ((9 <=? n) && (n <=? 13) || (n =? 32))%nat.

Definition is_ascii_text (s : list ascii) : bool :=
  forallb (fun c => (byte c <? 128)%N) s.

Fixpoint to_ascii (cs : list (N * list ascii)) : list ascii :=
  match cs with
  | [] => []
  | c :: cs' =>
      let n := fst c in
      if (n <? 127)%N then ascii_of_N n :: to_ascii cs'
      else if unicode_space n then " "%char :: to_ascii cs'
      else match unicode_decimal n with
           | Some d => ascii_of_N (48 + d) :: to_ascii cs'
           | None => ["?"%char]
           end
  end.

Definition float_text (s : list ascii) : list ascii :=
  if is_ascii_text s then s else to_ascii (utf8_decode s).

Definition is_digit (c : ascii) : bool :=
  let n := nat_of_ascii c in ((48 <=? n) && (n <=? 57))%nat.

Definition is_underscore (c : ascii) : bool := Ascii.eqb c "_".

Definition lower (c : ascii) : ascii :=
  let n := nat_of_ascii c in
  if ((65 <=? n) && (n <=? 90))%nat then ascii_of_nat (n + 32) else c.

Fixpoint drop_spaces (s : list ascii) : list ascii :=
  match s with
  | c :: s' => if is_space c then drop_spaces s' else s
  | [] => []
  end.

Definition strip (s : list ascii) : list ascii :=
  rev (drop_spaces (rev (drop_spaces s))).

Fixpoint remove_underscores (prev : ascii) (s : list ascii) : option (list ascii) :=
  match s with
  | [] => if is_underscore prev then None else Some []
  | c :: s' =>
      if is_underscore c then
        if is_digit prev then remove_underscores c s' else None
      else if is_underscore prev && negb (is_digit c) then None
      else cons c <$> remove_underscores c s'
  end.

Definition parse_sign (s : list ascii) : bool * list ascii :=
  match s with
  | "+"%char :: r => (false, r)
  | "-"%char :: r => (true, r)
  | _ => (false, s)
  end.

Fixpoint take_digits (s : list ascii) : list ascii * list ascii :=
  match s with
  | c :: s' =>
      if is_digit c then let '(d, r) := take_digits s' in (c :: d, r)
      else ([], s)
  | [] => ([], [])
  end.

Definition digits_value (d : list ascii) : Z :=
  fold_left (fun acc c => 10 * acc + (Z.of_nat (nat_of_ascii c) - 48)) d 0.

Definition is_nil {A} (l : list A) : bool :=
  match l with [] => true | _ => false end.

(** A decimal literal without its sign: the digits and the power of ten. *)
Definition parse_decimal (s : list ascii) : option (Z * Z) :=
  let '(ip, r1) := take_digits s in
  let '(fp, r2) := match r1 with
                   | "."%char :: r => take_digits r
                   | _ => ([], r1)
                   end in
  if is_nil ip && is_nil fp then None
  else
    let m := digits_value (ip ++ fp) in
    let k := Z.of_nat (length fp) in
    match r2 with
    | [] => Some (m, - k)
    | c :: r3 =>
        if Ascii.eqb (lower c) "e" then
          let '(es, r4) := parse_sign r3 in
          let '(ed, r5) := take_digits r4 in
          if is_nil ed || negb (is_nil r5) then None
          else Some (m, cond_Zopp es (digits_value ed) - k)
        else None
    end.

(** [(-1)^neg * m * 10^e] rounded to the nearest double. *)
Definition decimal_to_float (neg : bool) (m e : Z) : spec_float :=
  if m =? 0 then S754_zero neg
  else if 0 <=? e then binary_normalize prec emax (cond_Zopp neg (m * 10 ^ e)) 0 neg
  else SFdiv prec emax (Z2SF (cond_Zopp neg m)) (Z2SF (10 ^ (- e))).

Definition parse_inf_nan (neg : bool) (s : list ascii) : option spec_float :=
  let w := string_of_list_ascii (map lower s) in
  if String.eqb w "inf" || String.eqb w "infinity" then Some (S754_infinity neg)
  else if String.eqb w "nan" then Some S754_nan
  else None.

Definition py_float (s : string) : option spec_float :=
  match remove_underscores "000"%char (strip (float_text (list_ascii_of_string s))) with
  | None => None
  | Some t =>
      let '(neg, u) := parse_sign t in
      match parse_decimal u with
      | Some (m, e) => Some (decimal_to_float neg m e)
      | None => parse_inf_nan neg u
      end
  end.

(** [repr] of a text: between single quotes, or double quotes when the
    text has a single quote and no double quote; the quote in use and
    the backslash are escaped, and so are the characters that are not
    printable. *)
Definition hex_digit (n : N) : ascii :=
  if (n <? 10)%N then ascii_of_N (48 + n) else ascii_of_N (87 + n).

Fixpoint hex (width : nat) (n : N) : list ascii :=
  match width with
  | O => []
  | S w => hex w (n / 16) ++ [hex_digit (n mod 16)]
  end.

Definition backslash : ascii := ascii_of_N 92.

Definition repr_char (quote : N) (c : N * list ascii) : list ascii :=
  let n := fst c in
  if ((n =? quote) || (n =? 92))%N then [backslash; ascii_of_N n]
  else if (n =? 9)%N then [backslash; "t"%char]
  else if (n =? 10)%N then [backslash; "n"%char]
  else if (n =? 13)%N then [backslash; "r"%char]
  else if ((n <? 32) || (n =? 127))%N then backslash :: "x"%char :: hex 2 n
  else if (n <? 127)%N then [ascii_of_N n]
  else if unicode_printable n then snd c
  else if (n <? 256)%N then backslash :: "x"%char :: hex 2 n
  else if (n <? 65536)%N then backslash :: "u"%char :: hex 4 n
  else backslash :: "U"%char :: hex 8 n.

Definition py_repr (s : string) : string :=
  let cs := utf8_decode (list_ascii_of_string s) in
  let has q := existsb (fun c => (fst c =? q)%N) cs in
  let quote := if has 39%N && negb (has 34%N) then 34%N else 39%N in
  string_of_list_ascii
    (ascii_of_N quote :: concat (map (repr_char quote) cs) ++ [ascii_of_N quote]).

(** The message of the [ValueError] of [float(s)]. *)
Definition py_float_msg (s : string) : string :=
  "could not convert string to float: " +:+ py_repr s.

(** * agile_calculator.py *)

Module Agile.

Definition PRODUCT_BACKLOG : list string :=
  [ "I1: Add basic addition";
    "I2: Add subtraction";
    "I3: Add multiplication & division";
    "I4: Add safe division by zero handling";
    "I5: Add history of operations (nice-to-have)" ].

Definition FEATURES : dict bool :=
  [ ("add", true);
    ("subtract", true);
    ("multiply", true);
    ("divide", true);
    ("history", false) ].

Abbreviation binop := (value -> value -> result value).

(** A line of the history: [(op, a, b, result)]. *)
Abbreviation entry := (string * value * value * value)%type.

Record AgileCalculator : Type := {
  history : list entry;
  ops : gmap string binop
}.

(** [lambda a, b: a / b if b != 0 else float("inf")]. *)
Definition safe_divide : binop := fun a b =>
  if py_ne b (VInt 0) then py_truediv a b else Ok (VFloat inf).

(** In the methods below [F] is the global table [FEATURES] as it
    stands when the method runs. *)

Definition __init__ (F : dict bool) : result AgileCalculator :=
  let history := [] in
  let ops : gmap string binop := ∅ in
  f ← dict_getitem F "add";
  let ops := if f : bool then <["add" := py_add]> ops else ops in
  f ← dict_getitem F "subtract";
  let ops := if f : bool then <["subtract" := py_sub]> ops else ops in
  f ← dict_getitem F "multiply";
  let ops := if f : bool then <["multiply" := py_mul]> ops else ops in
  f ← dict_getitem F "divide";
  let ops := if f : bool then <["divide" := safe_divide]> ops else ops in
  Ok {| history := history; ops := ops |}.

Definition unavailable (op : string) : exn :=
  ValueError ("Feature '" +:+ op +:+ "' not available yet (toggle off or not built).").

Definition record_history (e : entry) : M AgileCalculator unit := fun self =>
  (Ok tt, {| history := history self ++ [e]; ops := ops self |}).

Definition run (F : dict bool) (op : string) (a b : value) : M AgileCalculator value :=
  registry ← gets ops;
  match registry !! op with
  | None => raise (unavailable op)
  | Some f =>
      result ← lift (f a b);
      (if truthy (dict_get F "history")
       then record_history (op, a, b, result)
       else mret tt);;
      mret result
  end.

Definition history_disabled : exn := RuntimeError "History feature not enabled yet.".

Definition get_history (F : dict bool) : M AgileCalculator (list entry) :=
  if negb (truthy (dict_get F "history")) then raise history_disabled
  else gets history.

(** The [try] of [_tests]: asking for the history must raise [RuntimeError]. *)
Definition history_must_fail (F : dict bool) : M AgileCalculator unit := fun self =>
  match get_history F self with
  | (Ok _, self') =>
      (Raise (AssertionError "History should not be accessible when feature is off."), self')
  | (Raise (RuntimeError _), self') => (Ok tt, self')
  | (Raise e, self') => (Raise e, self')
  end.

Definition _tests_on (F : dict bool) : M AgileCalculator unit :=
  r ← run F "add" (VInt 2) (VInt 3);
  d ← lift (py_sub r (VInt 5));
  lift (assert (py_lt (py_abs d) (VFloat lit_1e_9)));;
  r ← run F "subtract" (VInt 7) (VInt 4);
  d ← lift (py_sub r (VInt 3));
  lift (assert (py_lt (py_abs d) (VFloat lit_1e_9)));;
  r ← run F "multiply" (VInt 3) (VInt 4);
  d ← lift (py_sub r (VInt 12));
  lift (assert (py_lt (py_abs d) (VFloat lit_1e_9)));;
  r ← run F "divide" (VInt 10) (VInt 0);
  lift (assert (py_eq r (VFloat inf)));;
  history_must_fail F.

Definition _tests (F : dict bool) : result unit :=
  calc ← __init__ F;
  fst (_tests_on F calc).

(** The docstring of [run_cli], as it is written in the source. *)
Definition run_cli_doc : string :=
  unlines [ "";
    "    Usage:";
    "      python agile_calculator.py backlog";
    "      python agile_calculator.py features";
    "      python agile_calculator.py <op> <a> <b>";
    "    Examples:";
    "      python agile_calculator.py add 5 3";
    "      python agile_calculator.py divide 10 0";
    "    " ].

Section CLI.

(** The builtin [float] on the text of an argument ([None]: it raises
    [ValueError]) and the message of that error. *)
Variable float : string -> option spec_float.
Variable float_msg : string -> string.

Definition float_arg (s : string) : M stdout value :=
  match float s with
  | Some f => mret (VFloat f)
  | None => raise (ValueError (float_msg s))
  end.

(** [print(calc.run(op, a, b))] under [except ValueError as e]. *)
Definition print_run (F : dict bool) (calc : AgileCalculator) (op : string) (a b : value)
  : M stdout unit :=
  match fst (run F op a b calc) with
  | Ok r => print (Num r)
  | Raise (ValueError e) => print (Text ("Not available yet: " +:+ e))
  | Raise e => raise e
  end.

Definition run_cli (F : dict bool) (argv : list string) : M stdout unit :=
  let args := drop 1 argv in
  match args with
  | [] => print (Text run_cli_doc)
  | arg0 :: _ =>
      if String.eqb arg0 "backlog" then
        print (Text "Product Backlog:");;
        for_each PRODUCT_BACKLOG (fun item => print (Text (" - " +:+ item)))
      else if String.eqb arg0 "features" then
        print (Text "Feature Toggles:");;
        for_each F (fun '(k, v) =>
          print (Text (" - " +:+ k +:+ ": " +:+ (if v : bool then "ON" else "OFF"))))
      else
        match args with
        | [op; a_str; b_str] =>
            a ← float_arg a_str;
            b ← float_arg b_str;
            calc ← lift (__init__ F);
            print_run F calc op a b
        | _ => print (Text run_cli_doc)
        end
  end.

(** The script: the tests, then the command line. *)
Definition main (F : dict bool) (argv : list string) : M stdout unit :=
  lift (_tests F);;
  run_cli F argv.

End CLI.

(** The program as it is started: the table of the source, an empty output. *)
Definition program (argv : list string) : result unit * stdout :=
  main py_float py_float_msg FEATURES argv [].

End Agile.

(** * waterfall_calculator.py *)

Module Waterfall.

(** An object with the two methods of class [Calculator]. *)
Record Calculator : Type := {
  add : value -> value -> result value;
  subtract : value -> value -> result value
}.

(** [calc = Calculator()]. *)
Definition calc : Calculator := {| add := py_add; subtract := py_sub |}.

Definition usage : string :=
  "Usage: python waterfall_calculator.py <add|subtract> <a> <b>".

Definition rejection : string :=
  "Error: Operation not allowed by scope. Use 'add' or 'subtract' only.".

Section CLI.

Variable float : string -> option spec_float.
Variable float_msg : string -> string.

(** The global [calc] the functions below look up when they run. *)
Variable calc : Calculator.

Definition float_arg (s : string) : M stdout value :=
  match float s with
  | Some f => mret (VFloat f)
  | None => raise (ValueError (float_msg s))
  end.

Definition run_cli (argv : list string) : M stdout unit :=
  match argv with
  | [_; op; a_str; b_str] =>
      a ← float_arg a_str;
      b ← float_arg b_str;
      if String.eqb op "add" then
        r ← lift (add calc a b); print (Num r)
      else if String.eqb op "subtract" then
        r ← lift (subtract calc a b); print (Num r)
      else
        print (Text rejection);;
        raise (SystemExit 2)
  | _ =>
      print (Text usage);;
      raise (SystemExit 1)
  end.

Definition _self_test : result unit :=
  r ← add calc (VInt 5) (VInt 3);
  assert (py_eq r (VInt 8));;
  r ← subtract calc (VInt 5) (VInt 3);
  assert (py_eq r (VInt 2)).

Definition main (argv : list string) : M stdout unit :=
  lift _self_test;;
  run_cli argv.

End CLI.

Definition program (argv : list string) : result unit * stdout :=
  main py_float py_float_msg calc argv [].

End Waterfall.

(** * The vocabulary of the properties *)

(** The names of the four operations, and the function the constructor
    registers under each. *)
Definition op_names : list string := ["add"; "subtract"; "multiply"; "divide"].

Definition op_fun (op : string) : option Agile.binop :=
  if String.eqb op "add" then Some py_add
  else if String.eqb op "subtract" then Some py_sub
  else if String.eqb op "multiply" then Some py_mul
  else if String.eqb op "divide" then Some Agile.safe_divide
  else None.

(** The table of the source with the history switched on. *)
Definition FEATURES_history_on : dict bool :=
  [ ("add", true); ("subtract", true); ("multiply", true); ("divide", true);
    ("history", true) ].

(** The instance the constructor builds from the table of the source. *)
Definition fresh : Agile.AgileCalculator :=
  {| Agile.history := [];
     Agile.ops := <["divide" := Agile.safe_divide]> (<["multiply" := py_mul]>
                  (<["subtract" := py_sub]> (<["add" := py_add]> ∅))) |}.

(** Finite floats, zeros, and the exact value of a finite float (0 for
    the others). *)
Definition is_finite (f : spec_float) : bool :=
  match f with
  | S754_zero _ | S754_finite _ _ _ => true
  | _ => false
  end.

Definition is_zero (f : spec_float) : bool :=
  match f with
  | S754_zero _ => true
  | _ => false
  end.

Definition SF2Q (f : spec_float) : Q :=
  match f with
  | S754_finite s m e => F2Q s m e
  | _ => 0%Q
  end.

Definition cond_Qopp (s : bool) (x : Q) : Q := if s then (- x)%Q else x.

(** The mathematical result of an operation on two rationals. *)
Definition exact (op : string) (x y : Q) : option Q :=
  if String.eqb op "add" then Some (x + y)%Q
  else if String.eqb op "subtract" then Some (x - y)%Q
  else if String.eqb op "multiply" then Some (x * y)%Q
  else if String.eqb op "divide" then Some (x / y)%Q
  else None.

(** The number of low bits the rounding of [m * 2^e] drops. *)
Definition rnd_shift (m e : Z) : Z :=
  Z.max 0 (fexp prec emax (Zdigits2 m + e) - e).

(** What [binary_round_aux] returns for the mantissa [m'] it has
    chosen at exponent [E]. *)
Definition rounded (sx : bool) (m' E : Z) (r : spec_float) : Prop :=
  (m' = 0 /\ r = S754_zero sx) \/
  (exists p, Zpos p = m' /\ r = S754_finite sx p E) \/
  (exists p, 2 * Zpos p = m' /\ r = S754_finite sx p (E + 1)).

(** The floats that are doubles: canonical mantissa and exponent in range. *)
Definition is_double (f : spec_float) : Prop := valid_binary prec emax f = true.

(** A call of [run], with the table [FEATURES] as it stands at the call. *)
Abbreviation call := (dict bool * string * value * value)%type.

(** Calls made one after the other on an instance, by a caller that
    catches what they raise. *)
Fixpoint run_calls (cs : list call) (self : Agile.AgileCalculator) : Agile.AgileCalculator :=
  match cs with
  | [] => self
  | (F, op, a, b) :: cs' => run_calls cs' (snd (Agile.run F op a b self))
  end.

(** What a call leaves in the history of an instance with registry [reg]. *)
Definition recorded (reg : gmap string Agile.binop) (c : call) : list Agile.entry :=
  let '(F, op, a, b) := c in
  if truthy (dict_get F "history") then
    match reg !! op with
    | Some f =>
        match f a b with
        | Ok r => [(op, a, b, r)]
        | Raise _ => []
        end
    | None => []
    end
  else [].

(** * Properties *)

(** ** The builtin [float], on some texts *)

Example py_float_10 : py_float "10" = Some (S754_finite false 5629499534213120 (-49)).
Proof. vm_compute. reflexivity. Qed.

Example py_float_0 : py_float "0" = Some (S754_zero false).
Proof. vm_compute. reflexivity. Qed.

Example py_float_1e_9 : py_float "1e-9" = Some lit_1e_9.
Proof. vm_compute. reflexivity. Qed.

Example py_float_half : py_float " -.5_0e+0 " = Some (S754_finite true 4503599627370496 (-53)).
Proof. vm_compute. reflexivity. Qed.

Example py_float_huge : py_float "1e999" = Some inf.
Proof. vm_compute. reflexivity. Qed.

Example py_float_Inf : py_float "-Infinity" = Some (S754_infinity true).
Proof. vm_compute. reflexivity. Qed.

Example py_float_bad : py_float "abc" = None /\ py_float "1e" = None /\
  py_float "" = None /\ py_float "1__0" = None /\ py_float "0x10" = None.
Proof. vm_compute. repeat split. Qed.

(** U+001C is not stripped from an ASCII text; the Arabic-Indic digits
    one and two, and a no-break space before a digit, are read. *)
Example py_float_unicode :
  py_float (String (ascii_of_nat 28) "1") = None /\
  py_float (string_of_list_ascii (map ascii_of_nat [217; 161; 217; 162]%nat)) =
    Some (S754_finite false 6755399441055744 (-49)) /\
  py_float (string_of_list_ascii (map ascii_of_nat [194; 160; 49]%nat)) =
    Some (S754_finite false 4503599627370496 (-52)).
Proof. vm_compute. repeat split. Qed.

Example py_repr_quotes :
  py_repr "abc" = "'abc'" /\
  py_repr "a\b" = "'a\\b'" /\
  list_ascii_of_string (py_repr "it's") =
    ascii_of_nat 34 :: list_ascii_of_string "it's" ++ [ascii_of_nat 34] /\
  py_repr (String (ascii_of_nat 9) (String (ascii_of_nat 1) "")) = "'\t\x01'".
Proof. vm_compute. repeat split. Qed.

(** * Rounding to binary64 *)

Module Rounding.

Lemma digits2_pos_bounds (p : positive) :
  2 ^ (Zpos (digits2_pos p) - 1) <= Zpos p < 2 ^ Zpos (digits2_pos p).
Proof.
  induction p as [p IH|p IH|]; cbn [digits2_pos].
  - rewrite Pos2Z.inj_succ.
    replace (Z.succ (Zpos (digits2_pos p)) - 1) with (Z.succ (Zpos (digits2_pos p) - 1)) by lia.
    rewrite !Z.pow_succ_r by lia. lia.
  - rewrite Pos2Z.inj_succ.
    replace (Z.succ (Zpos (digits2_pos p)) - 1) with (Z.succ (Zpos (digits2_pos p) - 1)) by lia.
    rewrite !Z.pow_succ_r by lia. lia.
  - cbn. lia.
Qed.

(** The number of binary digits of [m >= 0] is the least [d >= 0] with [m < 2^d]. *)
Lemma Zdigits2_bounds (m : Z) :
  0 < m -> 2 ^ (Zdigits2 m - 1) <= m < 2 ^ Zdigits2 m.
Proof.
  destruct m as [|p|p]; try lia. intros _. apply digits2_pos_bounds.
Qed.

Lemma Zdigits2_pos (m : Z) : 0 < m -> 0 < Zdigits2 m.
Proof. destruct m; cbn; lia. Qed.

Lemma Zdigits2_le (m d : Z) : 0 <= d -> 0 <= m < 2 ^ d -> Zdigits2 m <= d.
Proof.
  intros Hd Hm. destruct (Z.eq_dec m 0) as [->|Hne]; [cbn; lia|].
  pose proof (Zdigits2_bounds m ltac:(lia)) as Hb.
  destruct (Z_lt_le_dec d (Zdigits2 m)) as [Hlt|]; [|lia].
  exfalso. assert (2 ^ d <= 2 ^ (Zdigits2 m - 1)) by (apply Z.pow_le_mono_r; lia). lia.
Qed.

(** ** Shifting right *)

Lemma shr_1_m (mrs : shr_record) :
  0 <= shr_m mrs -> shr_m (shr_1 mrs) = shr_m mrs / 2.
Proof.
  destruct mrs as [m r s]. cbn [shr_m]. intros Hm.
  destruct m as [|[p|p|]|p]; cbn [shr_1 shr_m]; try lia; try reflexivity.
  - apply Z.div_unique with (r := 1); lia.
  - apply Z.div_unique with (r := 0); lia.
Qed.

Lemma pow2_xO (p : positive) : 2 ^ Zpos p~0 = 2 ^ Zpos p * 2 ^ Zpos p.
Proof. rewrite <- Z.pow_add_r by lia. f_equal; lia. Qed.

Lemma pow2_xI (p : positive) : 2 ^ Zpos p~1 = 2 * (2 ^ Zpos p * 2 ^ Zpos p).
Proof.
  rewrite <- Z.pow_add_r, <- Z.pow_succ_r by lia. f_equal; lia.
Qed.

Lemma iter_shr_1_m (p : positive) (mrs : shr_record) :
  0 <= shr_m mrs -> shr_m (SpecFloat.iter_pos shr_1 p mrs) = shr_m mrs / 2 ^ Zpos p.
Proof.
  revert mrs. induction p as [p IH|p IH|]; intros mrs Hm; cbn [SpecFloat.iter_pos].
  - assert (0 <= shr_m (shr_1 mrs)) as H1 by (rewrite shr_1_m by lia; apply Z.div_pos; lia).
    assert (0 <= shr_m (SpecFloat.iter_pos shr_1 p (shr_1 mrs))) as H2
      by (rewrite IH by lia; apply Z.div_pos; lia).
    rewrite IH, IH, shr_1_m by lia.
    rewrite !Z.div_div by lia. rewrite pow2_xI. f_equal; lia.
  - assert (0 <= shr_m (SpecFloat.iter_pos shr_1 p mrs)) as H2
      by (rewrite IH by lia; apply Z.div_pos; lia).
    rewrite IH, IH by lia. rewrite Z.div_div by lia. rewrite pow2_xO. reflexivity.
  - rewrite shr_1_m by lia. reflexivity.
Qed.

Lemma fexp_eq (e : Z) : fexp prec emax e = Z.max (e - 53) (-1074).
Proof. reflexivity. Qed.

Lemma shr_record_of_loc_m (m : Z) (l : location) : shr_m (shr_record_of_loc m l) = m.
Proof. destruct l as [|[]]; reflexivity. Qed.

Lemma shr_fexp_spec (m e : Z) (l : location) :
  0 <= m ->
  exists mrs,
    shr_fexp prec emax m e l = (mrs, e + rnd_shift m e) /\
    shr_m mrs = m / 2 ^ rnd_shift m e /\
    (rnd_shift m e = 0 -> mrs = shr_record_of_loc m l).
Proof.
  intros Hm. unfold shr_fexp, rnd_shift, shr.
  destruct (fexp prec emax (Zdigits2 m + e) - e) as [|p|p] eqn:Hn.
  - exists (shr_record_of_loc m l). rewrite Z.max_id, Z.add_0_r, shr_record_of_loc_m.
    rewrite Z.pow_0_r, Z.div_1_r. auto.
  - exists (SpecFloat.iter_pos shr_1 p (shr_record_of_loc m l)).
    rewrite Z.max_r by lia. split; [reflexivity|]. split; [|lia].
    rewrite iter_shr_1_m; rewrite shr_record_of_loc_m; [reflexivity|exact Hm].
  - exists (shr_record_of_loc m l). rewrite Z.max_l by lia.
    rewrite Z.add_0_r, shr_record_of_loc_m, Z.pow_0_r, Z.div_1_r. auto.
Qed.

Lemma round_nearest_even_bounds (m : Z) (l : location) :
  m <= round_nearest_even m l <= m + 1.
Proof.
  destruct l as [|[]]; cbn; try lia. destruct (Z.even m); lia.
Qed.

Lemma floor_shift_lt (m n : Z) :
  0 <= m -> 0 <= n -> Zdigits2 m - n <= 53 -> m / 2 ^ n < 2 ^ 53.
Proof.
  intros Hm Hn Hd.
  assert (0 < 2 ^ n) as Hp by (apply Z.pow_pos_nonneg; lia).
  apply Z.div_lt_upper_bound; [exact Hp|].
  rewrite <- Z.pow_add_r by lia.
  destruct (Z.eq_dec m 0) as [->|Hne]; [apply Z.pow_pos_nonneg; lia|].
  pose proof (Zdigits2_bounds m ltac:(lia)) as [_ Hb].
  assert (2 ^ Zdigits2 m <= 2 ^ (n + 53)) by (apply Z.pow_le_mono_r; lia).
  lia.
Qed.

(** Rounding [m * 2^e], with [m >= 0], drops [n = rnd_shift m e] bits
    and keeps the floor of [m / 2^n] or the next integer, at exponent
    [e + n]; nothing is dropped and [m] is kept when [n = 0] and the
    location is exact. *)
Lemma binary_round_aux_spec (sx : bool) (m e : Z) (l : location) :
  0 <= m ->
  e + rnd_shift m e < emax - prec ->
  exists m',
    m / 2 ^ rnd_shift m e <= m' <= m / 2 ^ rnd_shift m e + 1 /\
    (rnd_shift m e = 0 -> l = loc_Exact -> m' = m) /\
    rounded sx m' (e + rnd_shift m e) (binary_round_aux prec emax sx m e l).
Proof.
  intros Hm HE. unfold binary_round_aux.
  destruct (shr_fexp_spec m e l Hm) as (mrs & -> & Hmrs & Hexact).
  set (n := rnd_shift m e) in *. set (E := e + n) in *.
  set (m1 := round_nearest_even (shr_m mrs) (loc_of_shr_record mrs)).
  assert (0 <= n) as Hn by (unfold n, rnd_shift; lia).
  assert (0 <= m / 2 ^ n) as Hfl by (apply Z.div_pos; [lia|apply Z.pow_pos_nonneg; lia]).
  assert (m / 2 ^ n <= m1 <= m / 2 ^ n + 1) as Hm1
    by (unfold m1; rewrite <- Hmrs; apply round_nearest_even_bounds).
  assert (-1074 <= E) as HEmin.
  { unfold E, n, rnd_shift. rewrite fexp_eq. lia. }
  assert (m / 2 ^ n < 2 ^ 53) as Hlt.
  { apply floor_shift_lt; [lia|lia|]. unfold n, rnd_shift. rewrite fexp_eq. lia. }
  exists m1. split; [exact Hm1|]. split.
  { intros Hn0 ->. unfold m1. rewrite (Hexact Hn0). reflexivity. }
  destruct (shr_fexp_spec m1 E loc_Exact ltac:(lia)) as (mrs2 & -> & Hmrs2 & _).
  destruct (Z.eq_dec m1 (2 ^ 53)) as [Hcarry|Hnocarry].
  - (* the mantissa has become 2^53: one more bit is dropped *)
    assert (Zdigits2 m1 = 54) as Hd by (rewrite Hcarry; reflexivity).
    assert (rnd_shift m1 E = 1) as Hs by (unfold rnd_shift; rewrite Hd, fexp_eq; lia).
    rewrite Hs in *. rewrite Hmrs2, Hcarry.
    change (2 ^ 53 / 2 ^ 1) with (Zpos (2 ^ 52)).
    cbv iota beta. 
    replace (E + 1 <=? emax - prec) with true by (symmetry; apply Z.leb_le; lia).
    right. right. exists (2 ^ 52)%positive. split; reflexivity.
  - assert (Zdigits2 m1 <= 53) as Hd by (apply Zdigits2_le; lia).
    assert (rnd_shift m1 E = 0) as Hs by (unfold rnd_shift; rewrite fexp_eq; lia).
    rewrite Hs in *. rewrite Hmrs2, Z.pow_0_r, Z.div_1_r, Z.add_0_r.
    destruct m1 as [|p|p] eqn:Hp; [left; auto| |lia].
    replace (E <=? emax - prec) with true by (symmetry; apply Z.leb_le; lia).
    right. left. exists p. auto.
Qed.

(** ** Exact values *)

Local Open Scope Q_scope.

#[global] Instance cond_Qopp_proper (s : bool) : Proper (Qeq ==> Qeq) (cond_Qopp s).
Proof. intros x y H. destruct s; cbn; rewrite H; reflexivity. Qed.

Lemma pow2_pos (e : Z) : 0 < 2 ^ e.
Proof. apply Qpower_0_lt. reflexivity. Qed.

Lemma pow2_add (a b : Z) : 2 ^ (a + b) == 2 ^ a * 2 ^ b.
Proof. apply Qpower_plus. discriminate. Qed.

Lemma pow2_inject (n : Z) : (0 <= n)%Z -> inject_Z (2 ^ n) == 2 ^ n.
Proof. intros Hn. apply (Zpower_Qpower 2 n Hn). Qed.

Lemma pow2_le (a b : Z) : (a <= b)%Z -> 2 ^ a <= 2 ^ b.
Proof. intros H. apply Qpower_le_compat_l; [exact H|discriminate]. Qed.

Lemma pow2_lt_inv (a b : Z) : 2 ^ a < 2 ^ b -> (a < b)%Z.
Proof.
  intros H. destruct (Z_lt_le_dec a b) as [|Hle]; [assumption|].
  apply pow2_le in Hle. lra.
Qed.

(** [k * 2^n * 2^e = k * 2^(e + n)]. *)
Lemma scale_shift (k n e : Z) :
  (0 <= n)%Z -> inject_Z (k * 2 ^ n) * 2 ^ e == inject_Z k * 2 ^ (e + n).
Proof.
  intros Hn. rewrite inject_Z_mult, pow2_inject, pow2_add by exact Hn. ring.
Qed.

Lemma inject_Z_cond_Zopp (s : bool) (z : Z) :
  inject_Z (cond_Zopp s z) == cond_Qopp s (inject_Z z).
Proof. destruct s; cbn; [rewrite inject_Z_opp|]; reflexivity. Qed.

Lemma cond_Qopp_mult (s : bool) (x y : Q) : cond_Qopp s x * y == cond_Qopp s (x * y).
Proof. destruct s; cbn; ring. Qed.

Lemma F2Q_eq (s : bool) (m : positive) (e : Z) :
  F2Q s m e == cond_Qopp s (inject_Z (Zpos m) * 2 ^ e).
Proof. unfold F2Q. rewrite inject_Z_cond_Zopp. apply cond_Qopp_mult. Qed.

Lemma rounded_value (sx : bool) (m' E : Z) (r : spec_float) :
  rounded sx m' E r ->
  is_finite r = true /\ SF2Q r == cond_Qopp sx (inject_Z m' * 2 ^ E).
Proof.
  intros [[-> ->]|[(p & <- & ->)|(p & <- & ->)]]; (split; [reflexivity|]).
  - destruct sx; cbn; ring.
  - apply F2Q_eq.
  - cbn [SF2Q]. rewrite F2Q_eq. apply cond_Qopp_proper.
    rewrite pow2_add, (inject_Z_mult 2 (Zpos p)).
    change (2 ^ 1) with 2. change (inject_Z 2) with 2. ring.
Qed.

Lemma tolerance : 2 ^ (-30) < 1 # 1000000000.
Proof. reflexivity. Qed.

(** Rounding a positive [x] that lies in [[m * 2^e, (m+1) * 2^e]]
    (and is [m * 2^e] when the location is exact): below 2^23 the result
    is finite and within 10^-9 of [x], with the sign [sx]. *)
Lemma binary_round_aux_close (sx : bool) (m e : Z) (l : location) (x : Q) :
  (0 <= m)%Z ->
  inject_Z m * 2 ^ e <= x <= inject_Z (m + 1) * 2 ^ e ->
  (l = loc_Exact -> (0 < m)%Z /\ x == inject_Z m * 2 ^ e) ->
  (l <> loc_Exact -> (e <= -30)%Z) ->
  x < 2 ^ 23 ->
  is_finite (binary_round_aux prec emax sx m e l) = true /\
  Qabs (SF2Q (binary_round_aux prec emax sx m e l) - cond_Qopp sx x) < 1 # 1000000000.
Proof.
  intros Hm [Hlo Hhi] Hex Hin Hx.
  set (n := rnd_shift m e). set (E := (e + n)%Z).
  assert (0 <= n)%Z as Hn by (unfold n, rnd_shift; lia).
  assert (0 < m -> Zdigits2 m + e <= 23)%Z as Hmag.
  { intros Hpos. pose proof (Zdigits2_bounds m Hpos) as [Hd _].
    pose proof (Zdigits2_pos m Hpos) as Hdp.
    assert (2 ^ (Zdigits2 m - 1 + e) < 2 ^ 23) as Hlt.
    { apply Qle_lt_trans with (2 := Hx). apply Qle_trans with (2 := Hlo).
      rewrite pow2_add, <- (pow2_inject (Zdigits2 m - 1)) by lia.
      apply Qmult_le_compat_r; [|apply Qlt_le_weak, pow2_pos].
      rewrite <- Zle_Qle. lia. }
    apply pow2_lt_inv in Hlt. lia. }
  assert (l = loc_Exact \/ l <> loc_Exact) as Hl
    by (destruct l; [left; reflexivity|right; discriminate]).
  assert ((n = 0%Z /\ l = loc_Exact) \/ (E <= -30)%Z) as Hcase.
  { destruct (Z.eq_dec n 0%Z) as [Hn0|Hn0].
    - destruct Hl as [Hl|Hl]; [left; auto|right].
      unfold E. specialize (Hin Hl). lia.
    - right. unfold E, n in *. unfold rnd_shift in *. rewrite fexp_eq in *.
      destruct (Z.eq_dec m 0%Z) as [->|Hne]; [cbn in *; lia|].
      specialize (Hmag ltac:(lia)). lia. }
  assert (E < emax - prec)%Z as HE.
  { destruct Hcase as [[Hn0 Hl']|HE]; [|unfold emax, prec; lia].
    destruct (Hex Hl') as [Hpos _]. specialize (Hmag Hpos).
    pose proof (Zdigits2_pos m Hpos). unfold E, emax, prec. lia. }
  destruct (binary_round_aux_spec sx m e l Hm HE) as (m' & Hm' & Hsame & Hr).
  change (rnd_shift m e) with n in Hm', Hsame, Hr. change (e + n)%Z with E in Hr.
  destruct (rounded_value _ _ _ _ Hr) as [Hfin Hval].
  split; [exact Hfin|].
  rewrite Hval.
  assert (cond_Qopp sx (inject_Z m' * 2 ^ E) - cond_Qopp sx x ==
          cond_Qopp sx (inject_Z m' * 2 ^ E - x)) as Hd by (destruct sx; cbn; ring).
  assert (forall y, Qabs (cond_Qopp sx y) == Qabs y) as Ha
    by (intros y; destruct sx; cbn; [apply Qabs_opp|reflexivity]).
  rewrite Hd, Ha. clear Hd Ha.
  destruct Hcase as [[Hn0 Hl']|HE30].
  - destruct (Hex Hl') as [_ Hxm]. rewrite Hxm, (Hsame Hn0 Hl').
    unfold E. rewrite Hn0, Z.add_0_r.
    assert (inject_Z m * 2 ^ e - inject_Z m * 2 ^ e == 0) as Hz by ring.
    rewrite Hz. reflexivity.
  - apply Qle_lt_trans with (2 ^ E); [|apply Qle_lt_trans with (2 := tolerance), pow2_le, HE30].
    assert (0 < 2 ^ n)%Z as Hpn by (apply Z.pow_pos_nonneg; lia).
    pose proof (Z.mul_div_le m (2 ^ n) Hpn) as Hfl1.
    pose proof (Z.mul_succ_div_gt m (2 ^ n) Hpn) as Hfl2.
    set (fl := (m / 2 ^ n)%Z) in *.
    pose proof (pow2_pos E) as HP.
    assert (inject_Z fl * 2 ^ E <= x) as Hxlo.
    { apply Qle_trans with (2 := Hlo). unfold E. rewrite <- scale_shift by lia.
      apply Qmult_le_compat_r; [|apply Qlt_le_weak, pow2_pos].
      rewrite <- Zle_Qle. lia. }
    assert (x <= inject_Z (fl + 1) * 2 ^ E) as Hxhi.
    { apply Qle_trans with (1 := Hhi). unfold E. rewrite <- scale_shift by lia.
      apply Qmult_le_compat_r; [|apply Qlt_le_weak, pow2_pos].
      rewrite <- Zle_Qle. lia. }
    assert (inject_Z fl * 2 ^ E <= inject_Z m' * 2 ^ E) as Hvlo.
    { apply Qmult_le_compat_r; [|apply Qlt_le_weak, HP]. rewrite <- Zle_Qle. lia. }
    assert (inject_Z m' * 2 ^ E <= inject_Z (fl + 1) * 2 ^ E) as Hvhi.
    { apply Qmult_le_compat_r; [|apply Qlt_le_weak, HP]. rewrite <- Zle_Qle. lia. }
    rewrite inject_Z_plus in Hxhi, Hvhi. change (inject_Z 1) with 1 in Hxhi, Hvhi.
    apply Qabs_Qle_condition.
    set (A := inject_Z fl * 2 ^ E) in *. set (V := inject_Z m' * 2 ^ E) in *.
    set (P := 2 ^ E) in *.
    assert ((inject_Z fl + 1) * P == A + P) as Heq by (unfold A; ring).
    rewrite Heq in Hxhi, Hvhi. split; lra.
Qed.

(** ** The four operations on finite floats *)

Lemma pos_iter_xO (m d : positive) : Zpos (Pos.iter xO m d) = (Zpos m * 2 ^ Zpos d)%Z.
Proof.
  induction d as [|d IH] using Pos.peano_ind.
  - cbn. lia.
  - rewrite Pos.iter_succ, Pos2Z.inj_xO, IH, Pos2Z.inj_succ, Z.pow_succ_r by lia. lia.
Qed.

Lemma shl_align_spec (mx : positive) (ex ex' : Z) :
  exists mz ez,
    shl_align mx ex ex' = (mz, ez) /\ (ez <= ex)%Z /\
    Zpos mz = (Zpos mx * 2 ^ (ex - ez))%Z /\
    ((ex' <= ex)%Z -> ez = ex').
Proof.
  unfold shl_align. destruct (ex' - ex)%Z as [|d|d] eqn:Hd.
  - exists mx, ex. rewrite Z.sub_diag. repeat split; lia.
  - exists mx, ex. rewrite Z.sub_diag. repeat split; lia.
  - exists (Pos.iter xO mx d), ex'. rewrite pos_iter_xO.
    replace (ex - ex')%Z with (Zpos d) by lia. repeat split; lia.
Qed.

(** [m * 2^e] is [(m * 2^(e - e')) * 2^e'] for [e' <= e]. *)
Lemma align_value (m e e' : Z) :
  (e' <= e)%Z -> inject_Z (m * 2 ^ (e - e')) * 2 ^ e' == inject_Z m * 2 ^ e.
Proof.
  intros H. rewrite scale_shift by lia. replace (e' + (e - e'))%Z with e by lia.
  reflexivity.
Qed.

Lemma Qabs_cond_Qopp (s : bool) (x : Q) : Qabs (cond_Qopp s x) == Qabs x.
Proof. destruct s; cbn; [apply Qabs_opp|reflexivity]. Qed.

Lemma pos_value_pos (m : positive) (e : Z) : 0 < inject_Z (Zpos m) * 2 ^ e.
Proof.
  apply Qmult_lt_0_compat; [|apply pow2_pos].
  change 0 with (inject_Z 0). rewrite <- Zlt_Qlt. lia.
Qed.

Lemma binary_round_close (sx : bool) (mx : positive) (ex : Z) :
  inject_Z (Zpos mx) * 2 ^ ex < 2 ^ 23 ->
  is_finite (binary_round prec emax sx mx ex) = true /\
  Qabs (SF2Q (binary_round prec emax sx mx ex) -
        cond_Qopp sx (inject_Z (Zpos mx) * 2 ^ ex)) < 1 # 1000000000.
Proof.
  intros Hx. unfold binary_round.
  destruct (shl_align_spec mx ex (fexp prec emax (Zpos (digits2_pos mx) + ex)))
    as (mz & ez & -> & Hez & Hmz & _).
  assert (inject_Z (Zpos mz) * 2 ^ ez == inject_Z (Zpos mx) * 2 ^ ex) as Hv
    by (rewrite Hmz; apply align_value, Hez).
  rewrite <- Hv in *.
  apply binary_round_aux_close; try lia; try exact Hx.
  - split; [apply Qle_refl|].
    apply Qmult_le_compat_r; [|apply Qlt_le_weak, pow2_pos].
    rewrite <- Zle_Qle. lia.
  - intros _. split; [lia|reflexivity].
  - intros H. contradiction H. reflexivity.
Qed.

Lemma binary_normalize_close (m e : Z) :
  Qabs (inject_Z m * 2 ^ e) < 2 ^ 23 ->
  is_finite (binary_normalize prec emax m e false) = true /\
  Qabs (SF2Q (binary_normalize prec emax m e false) - inject_Z m * 2 ^ e)
    < 1 # 1000000000.
Proof.
  intros Hx. destruct m as [|p|p]; cbn [binary_normalize].
  - split; [reflexivity|]. cbn [SF2Q].
    assert (0 - inject_Z 0 * 2 ^ e == 0) as Hz by ring. rewrite Hz. reflexivity.
  - rewrite Qabs_pos in Hx by apply Qlt_le_weak, pos_value_pos.
    apply (binary_round_close false p e Hx).
  - assert (inject_Z (Zneg p) * 2 ^ e == - (inject_Z (Zpos p) * 2 ^ e)) as Hneg.
    { change (Zneg p) with (- Zpos p)%Z. rewrite inject_Z_opp. ring. }
    rewrite Hneg in *. rewrite Qabs_opp, Qabs_pos in Hx by apply Qlt_le_weak, pos_value_pos.
    apply (binary_round_close true p e Hx).
Qed.

Lemma F2Q_aligned (s : bool) (m : positive) (e ez : Z) :
  (ez <= e)%Z ->
  F2Q s m e == inject_Z (cond_Zopp s (Zpos (fst (shl_align m e ez)))) * 2 ^ ez.
Proof.
  intros H. destruct (shl_align_spec m e ez) as (mz & e' & Heq & _ & Hmz & He').
  rewrite Heq. cbn [fst]. rewrite (He' H) in Hmz. rewrite Hmz.
  unfold F2Q. rewrite !inject_Z_cond_Zopp, !cond_Qopp_mult.
  apply cond_Qopp_proper. symmetry. apply align_value, H.
Qed.

Lemma exact_close (x y : Q) : x == y -> Qabs (x - y) < 1 # 1000000000.
Proof.
  intros ->. assert (y - y == 0) as Hz by ring. rewrite Hz. reflexivity.
Qed.

Lemma SFadd_close (a b : spec_float) :
  is_finite a = true -> is_finite b = true ->
  Qabs (SF2Q a + SF2Q b) < 2 ^ 23 ->
  is_finite (SFadd prec emax a b) = true /\
  Qabs (SF2Q (SFadd prec emax a b) - (SF2Q a + SF2Q b)) < 1 # 1000000000.
Proof.
  intros Ha Hb Hx.
  destruct a as [sa|sa| |sa ma ea]; try discriminate;
  destruct b as [sb|sb| |sb mb eb]; try discriminate; cbn [SFadd SF2Q] in *.
  - split; [destruct sa, sb; reflexivity|].
    destruct sa, sb; reflexivity.
  - split; [reflexivity|]. apply exact_close. cbn [SF2Q]. ring.
  - split; [reflexivity|]. apply exact_close. cbn [SF2Q]. ring.
  - assert (F2Q sa ma ea + F2Q sb mb eb ==
            inject_Z (cond_Zopp sa (Zpos (fst (shl_align ma ea (Z.min ea eb)))) +
                      cond_Zopp sb (Zpos (fst (shl_align mb eb (Z.min ea eb))))) *
            2 ^ Z.min ea eb) as Hsum.
    { rewrite (F2Q_aligned sa ma ea (Z.min ea eb)) by lia.
      rewrite (F2Q_aligned sb mb eb (Z.min ea eb)) by lia.
      rewrite inject_Z_plus. ring. }
    rewrite Hsum in *. apply binary_normalize_close, Hx.
Qed.

Lemma SFsub_close (a b : spec_float) :
  is_finite a = true -> is_finite b = true ->
  Qabs (SF2Q a - SF2Q b) < 2 ^ 23 ->
  is_finite (SFsub prec emax a b) = true /\
  Qabs (SF2Q (SFsub prec emax a b) - (SF2Q a - SF2Q b)) < 1 # 1000000000.
Proof.
  intros Ha Hb Hx.
  destruct a as [sa|sa| |sa ma ea]; try discriminate;
  destruct b as [sb|sb| |sb mb eb]; try discriminate; cbn [SFsub SF2Q] in *.
  - split; [destruct sa, sb; reflexivity|].
    destruct sa, sb; reflexivity.
  - split; [reflexivity|]. apply exact_close. cbn [SF2Q].
    rewrite !F2Q_eq. destruct sb; cbn; ring.
  - split; [reflexivity|]. apply exact_close. cbn [SF2Q]. ring.
  - assert (F2Q sa ma ea - F2Q sb mb eb ==
            inject_Z (cond_Zopp sa (Zpos (fst (shl_align ma ea (Z.min ea eb)))) -
                      cond_Zopp sb (Zpos (fst (shl_align mb eb (Z.min ea eb))))) *
            2 ^ Z.min ea eb) as Hsum.
    { rewrite (F2Q_aligned sa ma ea (Z.min ea eb)) by lia.
      rewrite (F2Q_aligned sb mb eb (Z.min ea eb)) by lia.
      unfold Z.sub. rewrite inject_Z_plus, inject_Z_opp. ring. }
    rewrite Hsum in *. apply binary_normalize_close, Hx.
Qed.

Lemma cond_Qopp_xorb (s t : bool) (x y : Q) :
  cond_Qopp s x * cond_Qopp t y == cond_Qopp (xorb s t) (x * y).
Proof. destruct s, t; cbn; ring. Qed.

Lemma SFmul_close (a b : spec_float) :
  is_finite a = true -> is_finite b = true ->
  Qabs (SF2Q a * SF2Q b) < 2 ^ 23 ->
  is_finite (SFmul prec emax a b) = true /\
  Qabs (SF2Q (SFmul prec emax a b) - SF2Q a * SF2Q b) < 1 # 1000000000.
Proof.
  intros Ha Hb Hx.
  destruct a as [sa|sa| |sa ma ea]; try discriminate;
  destruct b as [sb|sb| |sb mb eb]; try discriminate; cbn [SFmul SF2Q] in *;
    try (split; [reflexivity|]; apply exact_close; ring).
  assert (F2Q sa ma ea * F2Q sb mb eb ==
          cond_Qopp (xorb sa sb) (inject_Z (Zpos (ma * mb)) * 2 ^ (ea + eb))) as Hprod.
  { rewrite !F2Q_eq, cond_Qopp_xorb. apply cond_Qopp_proper.
    rewrite Pos2Z.inj_mul, inject_Z_mult, pow2_add. ring. }
  rewrite Hprod in *. rewrite Qabs_cond_Qopp, Qabs_pos in Hx
    by apply Qlt_le_weak, pos_value_pos.
  apply binary_round_aux_close; try lia; try exact Hx.
  - split; [apply Qle_refl|].
    apply Qmult_le_compat_r; [|apply Qlt_le_weak, pow2_pos].
    rewrite <- Zle_Qle. lia.
  - intros _. split; [lia|reflexivity].
  - intros H. contradiction H. reflexivity.
Qed.

Lemma new_location_exact (n k : Z) : new_location n k = loc_Exact -> k = 0%Z.
Proof.
  unfold new_location, new_location_even, new_location_odd.
  destruct (Z.even n); destruct (Z.eqb_spec k 0); intros H; (assumption || discriminate H).
Qed.

(** The quotient [SFdiv] rounds: the floor of [mx * 2^s / my], for a
    shift [s >= 0] that leaves the exponent [e'] at most the exponent of
    the rounded quotient. *)
Lemma SFdiv_core_spec (mx my : positive) (ex ey : Z) :
  exists q e' l s,
    SFdiv_core_binary prec emax (Zpos mx) ex (Zpos my) ey = (q, e', l) /\
    (0 <= s)%Z /\ (ex - ey = s + e')%Z /\
    q = (Zpos mx * 2 ^ s / Zpos my)%Z /\
    (l = loc_Exact -> (Zpos mx * 2 ^ s) mod Zpos my = 0)%Z /\
    (e' <= fexp prec emax (Zdigits2 (Zpos mx) + ex - (Zdigits2 (Zpos my) + ey)))%Z.
Proof.
  unfold SFdiv_core_binary.
  set (e' := Z.min (fexp prec emax (Zdigits2 (Zpos mx) + ex - (Zdigits2 (Zpos my) + ey)))
                   (ex - ey)).
  set (s := (ex - ey - e')%Z).
  assert (0 <= s)%Z as Hs by (unfold s, e'; lia).
  set (m' := match s with
             | Zpos _ => Z.shiftl (Zpos mx) s
             | Z0 => Zpos mx
             | Zneg _ => Z0
             end).
  assert (m' = Zpos mx * 2 ^ s)%Z as Hm'.
  { unfold m'. destruct s as [|p|p] eqn:Hp; [rewrite Z.pow_0_r; lia| |lia].
    apply Z.shiftl_mul_pow2. lia. }
  pose proof (Z.div_eucl_eq m' (Zpos my) ltac:(lia)) as Heucl.
  assert (fst (Z.div_eucl m' (Zpos my)) = m' / Zpos my)%Z as Hq by reflexivity.
  assert (snd (Z.div_eucl m' (Zpos my)) = m' mod Zpos my)%Z as Hr by reflexivity.
  destruct (Z.div_eucl m' (Zpos my)) as [q r]. cbn [fst snd] in Hq, Hr.
  exists q, e', (new_location (Zpos my) r), s.
  split; [reflexivity|]. split; [exact Hs|]. split; [unfold s; lia|].
  split; [rewrite <- Hm'; exact Hq|]. split; [|unfold e'; lia].
  intros Hl%new_location_exact. rewrite <- Hm', <- Hr. exact Hl.
Qed.

Lemma digits_value_bounds (m : positive) (e : Z) :
  2 ^ (Zdigits2 (Zpos m) - 1 + e) <= inject_Z (Zpos m) * 2 ^ e /\
  inject_Z (Zpos m) * 2 ^ e <= 2 ^ (Zdigits2 (Zpos m) + e).
Proof.
  pose proof (Zdigits2_bounds (Zpos m) ltac:(lia)) as [Hlo Hhi].
  pose proof (Zdigits2_pos (Zpos m) ltac:(lia)) as Hd.
  split.
  - rewrite pow2_add, <- (pow2_inject (Zdigits2 (Zpos m) - 1)) by lia.
    apply Qmult_le_compat_r; [|apply Qlt_le_weak, pow2_pos].
    rewrite <- Zle_Qle. exact Hlo.
  - rewrite pow2_add, <- (pow2_inject (Zdigits2 (Zpos m))) by lia.
    apply Qmult_le_compat_r; [|apply Qlt_le_weak, pow2_pos].
    rewrite <- Zle_Qle. lia.
Qed.

Lemma SFdiv_close (a b : spec_float) :
  is_finite a = true -> is_finite b = true ->
  ~ SF2Q b == 0 ->
  Qabs (SF2Q a / SF2Q b) < 2 ^ 23 ->
  is_finite (SFdiv prec emax a b) = true /\
  Qabs (SF2Q (SFdiv prec emax a b) - SF2Q a / SF2Q b) < 1 # 1000000000.
Proof.
  intros Ha Hb Hnz Hx.
  destruct a as [sa|sa| |sa ma ea]; try discriminate;
  destruct b as [sb|sb| |sb mb eb]; try discriminate; cbn [SFdiv SF2Q] in *;
    try (contradiction Hnz; reflexivity).
  - split; [reflexivity|]. apply exact_close. unfold Qdiv. ring.
  - set (A := inject_Z (Zpos ma) * 2 ^ ea) in *.
    set (B := inject_Z (Zpos mb) * 2 ^ eb) in *.
    assert (0 < A) as HA by apply pos_value_pos.
    assert (0 < B) as HB by apply pos_value_pos.
    assert (F2Q sa ma ea / F2Q sb mb eb == cond_Qopp (xorb sa sb) (A / B)) as Hquot.
    { rewrite !F2Q_eq. fold A B. destruct sa, sb; cbn; field; lra. }
    rewrite Hquot in *. clear Hquot.
    assert (0 < A / B) as Hpos by (apply Qlt_shift_div_l; [exact HB|lra]).
    rewrite Qabs_cond_Qopp, Qabs_pos in Hx by lra.
    destruct (SFdiv_core_spec ma mb ea eb) as (q & e' & l & s & -> & Hs & He & Hq & Hl & He').
    set (m' := (Zpos ma * 2 ^ s)%Z) in *.
    assert (0 < 2 ^ s)%Z as Hps by (apply Z.pow_pos_nonneg; lia).
    assert (0 < m')%Z as Hm' by (unfold m'; lia).
    set (T := 2 ^ e' * 2 ^ eb).
    assert (0 < T) as HT by (apply Qmult_lt_0_compat; apply pow2_pos).
    assert (A == inject_Z m' * T) as HAeq.
    { unfold A, m', T. rewrite inject_Z_mult, pow2_inject by lia.
      replace ea with (s + e' + eb)%Z by lia. rewrite !pow2_add. ring. }
    assert (forall k, inject_Z k * 2 ^ e' * B == inject_Z (k * Zpos mb) * T) as HkB.
    { intros k. unfold B, T. rewrite inject_Z_mult. ring. }
    pose proof (Z.mul_div_le m' (Zpos mb) ltac:(lia)) as Hq1.
    pose proof (Z.mul_succ_div_gt m' (Zpos mb) ltac:(lia)) as Hq2.
    rewrite <- Hq in Hq1, Hq2.
    assert (0 <= q)%Z as Hq0 by (rewrite Hq; apply Z.div_pos; lia).
    apply binary_round_aux_close; try exact Hx; try exact Hq0.
    + split.
      * apply Qle_shift_div_l; [exact HB|]. rewrite HkB, HAeq.
        apply Qmult_le_compat_r; [|lra]. rewrite <- Zle_Qle. lia.
      * apply Qle_shift_div_r; [exact HB|]. rewrite HkB, HAeq.
        apply Qmult_le_compat_r; [|lra]. rewrite <- Zle_Qle. lia.
    + intros Hex. specialize (Hl Hex).
      assert (m' = q * Zpos mb)%Z as Hmq.
      { rewrite Hq. pose proof (Z.div_mod m' (Zpos mb) ltac:(lia)). lia. }
      split; [nia|].
      assert (A == inject_Z q * 2 ^ e' * B) as HAB by (rewrite HkB, HAeq, Hmq; reflexivity).
      rewrite HAB. field. lra.
    + intros _.
      pose proof (digits_value_bounds ma ea) as [HAlo _].
      pose proof (digits_value_bounds mb eb) as [_ HBhi].
      fold A in HAlo. fold B in HBhi.
      set (D := (Zdigits2 (Zpos ma) + ea - (Zdigits2 (Zpos mb) + eb))%Z) in *.
      assert (2 ^ (D - 1) <= A / B) as Hlow.
      { apply Qle_shift_div_l; [exact HB|].
        apply Qle_trans with (2 ^ (D - 1) * 2 ^ (Zdigits2 (Zpos mb) + eb)).
        - apply Qmult_le_l; [apply pow2_pos|exact HBhi].
        - rewrite <- pow2_add.
          replace (D - 1 + (Zdigits2 (Zpos mb) + eb))%Z
            with (Zdigits2 (Zpos ma) - 1 + ea)%Z by (unfold D; lia).
          exact HAlo. }
      assert (D - 1 < 23)%Z by (apply pow2_lt_inv; lra).
      rewrite fexp_eq in He'. lia.
Qed.

End Rounding.

(** ** The registry of an instance *)

Module AgileFacts.
Import Agile.

(** What the constructor builds, flag by flag. *)
Lemma init_inv (F : dict bool) (c : AgileCalculator) :
  __init__ F = Ok c ->
  exists b1 b2 b3 b4 : bool,
    dict_get F "add" = Some b1 /\ dict_get F "subtract" = Some b2 /\
    dict_get F "multiply" = Some b3 /\ dict_get F "divide" = Some b4 /\
    history c = [] /\
    ops c =
      (if b4 then <["divide" := safe_divide]> else id)
        ((if b3 then <["multiply" := py_mul]> else id)
           ((if b2 then <["subtract" := py_sub]> else id)
              ((if b1 then <["add" := py_add]> else id) ∅))).
Proof.
  unfold __init__, dict_getitem.
  destruct (dict_get F "add") as [b1|]; [|discriminate].
  destruct (dict_get F "subtract") as [b2|]; [|discriminate].
  destruct (dict_get F "multiply") as [b3|]; [|discriminate].
  destruct (dict_get F "divide") as [b4|]; [|discriminate].
  cbn. intros [= <-]. exists b1, b2, b3, b4.
  destruct b1, b2, b3, b4; cbn; auto 10.
Qed.

Lemma op_fun_names (op : string) : is_Some (op_fun op) <-> op ∈ op_names.
Proof.
  unfold op_fun, op_names.
  destruct (String.eqb_spec op "add") as [->|]; [split; [set_solver|eauto]|].
  destruct (String.eqb_spec op "subtract") as [->|]; [split; [set_solver|eauto]|].
  destruct (String.eqb_spec op "multiply") as [->|]; [split; [set_solver|eauto]|].
  destruct (String.eqb_spec op "divide") as [->|]; [split; [set_solver|eauto]|].
  split; [intros [? [=]]|]. rewrite !elem_of_cons, elem_of_nil. tauto.
Qed.

(** The registry holds exactly the operations whose flag was true. *)
Lemma init_lookup (F : dict bool) (c : AgileCalculator) (op : string) :
  __init__ F = Ok c ->
  ops c !! op = if truthy (dict_get F op) then op_fun op else None.
Proof.
  intros (b1 & b2 & b3 & b4 & H1 & H2 & H3 & H4 & _ & ->)%init_inv.
  unfold op_fun.
  destruct (String.eqb_spec op "add") as [->|].
  { rewrite H1. destruct b1, b2, b3, b4; reflexivity. }
  destruct (String.eqb_spec op "subtract") as [->|].
  { rewrite H2. destruct b1, b2, b3, b4; reflexivity. }
  destruct (String.eqb_spec op "multiply") as [->|].
  { rewrite H3. destruct b1, b2, b3, b4; reflexivity. }
  destruct (String.eqb_spec op "divide") as [->|].
  { rewrite H4. destruct b1, b2, b3, b4; reflexivity. }
  assert (forall (b : bool) k f (m : gmap string binop), k <> op -> m !! op = None ->
    (if b then <[k := f]> else id) m !! op = None) as Hstep.
  { intros [] k f m Hk Hm; cbn; [rewrite lookup_insert_ne by done|]; exact Hm. }
  transitivity (@None binop); [|destruct (truthy _); reflexivity].
  repeat (apply Hstep; [congruence|]). apply lookup_empty.
Qed.

(** [run] never changes the registry. *)
Lemma run_ops (F : dict bool) (op : string) (a b : value) (self : AgileCalculator) :
  ops (snd (run F op a b self)) = ops self.
Proof.
  unfold run, gets, mbind, M_bind, lift, raise, record_history, mret, M_ret.
  destruct (ops self !! op) as [f|]; cbn; [|reflexivity].
  destruct (f a b); cbn; [|reflexivity].
  destruct (truthy _); reflexivity.
Qed.

(** [run], case by case. *)
Lemma run_eq (F : dict bool) (op : string) (a b : value) (self : AgileCalculator) :
  run F op a b self =
  match ops self !! op with
  | None => (Raise (unavailable op), self)
  | Some f =>
      match f a b with
      | Raise e => (Raise e, self)
      | Ok r =>
          (Ok r, if truthy (dict_get F "history")
                 then {| history := history self ++ [(op, a, b, r)]; ops := ops self |}
                 else self)
      end
  end.
Proof.
  unfold run, gets, mbind, M_bind, lift, raise, record_history, mret, M_ret.
  destruct (ops self !! op) as [f|]; cbn; [|reflexivity].
  destruct (f a b); cbn; [|reflexivity].
  destruct (truthy _); reflexivity.
Qed.

(** No operation raises [ValueError]: that class is the mark of a name
    [run] does not know. *)
Lemma op_fun_no_ValueError (op : string) (f : binop) (a b : value) (msg : string) :
  op_fun op = Some f -> f a b <> Raise (ValueError msg).
Proof.
  assert (forall z, float_of_int z <> Raise (ValueError msg)) as Hconv.
  { intros z. unfold float_of_int. destruct (binary_normalize _ _ _ _ _); discriminate. }
  assert (forall v, to_float v <> Raise (ValueError msg)) as Hto.
  { intros [z|x]; [apply Hconv|discriminate]. }
  assert (forall (g : spec_float -> spec_float -> result value),
            (forall x y, g x y <> Raise (ValueError msg)) ->
            forall u v, (x ← to_float u; y ← to_float v; g x y) <> Raise (ValueError msg))
    as Hbind.
  { intros g Hg u v. unfold mbind, result_bind.
    pose proof (Hto u) as Hu. pose proof (Hto v) as Hv.
    destruct (to_float u) as [x|e]; [|intros [= He]; apply Hu; rewrite He; reflexivity].
    destruct (to_float v) as [y|e]; [apply Hg|].
    intros [= He]; apply Hv; rewrite He; reflexivity. }
  assert (py_truediv a b <> Raise (ValueError msg)) as Hdiv.
  { destruct a as [x|x], b as [y|y]; cbn [py_truediv];
      try (apply Hbind; intros u [| | |]; discriminate).
    destruct (y =? 0)%Z; [discriminate|].
    destruct (SFdiv _ _ _ _); discriminate. }
  unfold op_fun.
  destruct (String.eqb op "add").
  { intros [= <-]. destruct a as [x|x], b as [y|y]; cbn [py_add];
      try discriminate; apply Hbind; discriminate. }
  destruct (String.eqb op "subtract").
  { intros [= <-]. destruct a as [x|x], b as [y|y]; cbn [py_sub];
      try discriminate; apply Hbind; discriminate. }
  destruct (String.eqb op "multiply").
  { intros [= <-]. destruct a as [x|x], b as [y|y]; cbn [py_mul];
      try discriminate; apply Hbind; discriminate. }
  destruct (String.eqb op "divide"); [|discriminate].
  intros [= <-]. unfold safe_divide. destruct (py_ne b (VInt 0)); [exact Hdiv|discriminate].
Qed.

End AgileFacts.

(** ** The toggleable calculator *)

Section AgileClaims.
Import Agile AgileFacts.

Lemma init_FEATURES : __init__ FEATURES = Ok fresh.
Proof. reflexivity. Qed.

(** C3: on a name that is not in the registry, [run] raises the
    [ValueError] "Feature '<op>' not available yet (toggle off or not
    built)." whatever the operands and the flags, and the instance, its
    history included, is as it was before the call. *)
Theorem run_unavailable (F : dict bool) (self : AgileCalculator) (op : string) (a b : value) :
  ops self !! op = None ->
  run F op a b self =
    (Raise (ValueError ("Feature '" +:+ op +:+ "' not available yet (toggle off or not built).")),
     self)
  /\ history (snd (run F op a b self)) = history self.
Proof.
  intros Hop. rewrite run_eq, Hop. split; reflexivity.
Qed.

Lemma run_unavailable_witness :
  fresh.(ops) !! "power" = None /\
  run FEATURES_history_on "power" (VInt 2) (VInt 3) fresh =
    (Raise (ValueError "Feature 'power' not available yet (toggle off or not built)."), fresh).
Proof.
  split; [reflexivity|].
  apply (run_unavailable FEATURES_history_on fresh "power" (VInt 2) (VInt 3)).
  reflexivity.
Defined.

(** C4: with the history flag true, a call of [run] that returns [r]
    leaves the instance with the same registry and with its history
    extended by the one entry [(op, a, b, r)] at the end; a call succeeds
    as soon as the registered function returns.  On a fresh instance,
    [run("add", 2, 3)] then [run("subtract", 7, 4)] then [get_history()]
    gives [("add", 2, 3, 5); ("subtract", 7, 4, 3)]. *)
Theorem history_append_only :
  (forall (F : dict bool) (self self' : AgileCalculator) (op : string) (a b r : value),
     dict_get F "history" = Some true ->
     run F op a b self = (Ok r, self') ->
     history self' = history self ++ [(op, a, b, r)] /\ ops self' = ops self) /\
  (forall (F : dict bool) (self : AgileCalculator) (op : string) (a b r : value) (f : binop),
     dict_get F "history" = Some true ->
     ops self !! op = Some f -> f a b = Ok r ->
     run F op a b self =
       (Ok r, {| history := history self ++ [(op, a, b, r)]; ops := ops self |})) /\
  (forall (F : dict bool) (c : AgileCalculator),
     dict_get F "history" = Some true ->
     dict_get F "add" = Some true -> dict_get F "subtract" = Some true ->
     __init__ F = Ok c ->
     fst ((run F "add" (VInt 2) (VInt 3);;
           run F "subtract" (VInt 7) (VInt 4);;
           get_history F) c) =
       Ok [("add", VInt 2, VInt 3, VInt 5); ("subtract", VInt 7, VInt 4, VInt 3)]).
Proof.
  split; [|split].
  - intros F self self' op a b r HF. rewrite run_eq, HF. cbn.
    destruct (ops self !! op) as [f|]; [|discriminate].
    destruct (f a b); [|discriminate].
    intros [= <- <-]. split; reflexivity.
  - intros F self op a b r f HF Hop Hf. rewrite run_eq, Hop, Hf, HF. reflexivity.
  - intros F c HF Hadd Hsub Hinit.
    pose proof (init_lookup F c "add" Hinit) as La.
    pose proof (init_lookup F c "subtract" Hinit) as Ls.
    rewrite Hadd in La. rewrite Hsub in Ls. cbn in La, Ls.
    apply init_inv in Hinit as (_ & _ & _ & _ & _ & _ & _ & _ & Hh & _).
    unfold mbind, M_bind. rewrite run_eq, La. cbn. rewrite HF. cbn.
    rewrite run_eq. cbn. rewrite Ls. cbn. rewrite HF. cbn.
    unfold get_history. rewrite HF. cbn. rewrite Hh. reflexivity.
Qed.

Lemma history_append_only_witness :
  fst ((run FEATURES_history_on "add" (VInt 2) (VInt 3);;
        run FEATURES_history_on "subtract" (VInt 7) (VInt 4);;
        get_history FEATURES_history_on) fresh) =
    Ok [("add", VInt 2, VInt 3, VInt 5); ("subtract", VInt 7, VInt 4, VInt 3)].
Proof.
  apply (proj2 (proj2 history_append_only) FEATURES_history_on fresh);
    reflexivity.
Defined.

(** C5: while the history flag is false (or absent), [get_history]
    raises [RuntimeError] on every instance, whatever was run on it
    before, and leaves it as it is; the class of that error is not the
    class of the error [run] raises for an unavailable operation. *)
Theorem get_history_disabled (F : dict bool) (self : AgileCalculator) :
  truthy (dict_get F "history") = false ->
  get_history F self = (Raise (RuntimeError "History feature not enabled yet."), self) /\
  forall op : string,
    class_of (RuntimeError "History feature not enabled yet.") <> class_of (unavailable op).
Proof.
  intros HF. unfold get_history. rewrite HF. split; [reflexivity|].
  intros op. discriminate.
Qed.

Lemma get_history_disabled_witness :
  get_history FEATURES (snd (run FEATURES "add" (VInt 2) (VInt 3) fresh)) =
    (Raise (RuntimeError "History feature not enabled yet."),
     snd (run FEATURES "add" (VInt 2) (VInt 3) fresh)).
Proof.
  apply (get_history_disabled FEATURES (snd (run FEATURES "add" (VInt 2) (VInt 3) fresh))).
  reflexivity.
Defined.

(** C2, as stated, fails: the history flag is read by every call.  On
    the instance built while the flag was false, [get_history] raises
    with the table of the source and returns the history once the flag
    is true, so the behaviour of an instance depends on the table after
    its construction. *)
Lemma history_flag_read_per_call :
  ~ (forall (F F' : dict bool) (c : AgileCalculator),
       __init__ F = Ok c -> get_history F' c = get_history F c).
Proof.
  intros H. specialize (H FEATURES FEATURES_history_on fresh init_FEATURES).
  discriminate H.
Qed.

(** C2, amended: a name is in the registry of an instance exactly when
    it is one of the four operations and its flag was true when the
    instance was built, and it is callable through [run] exactly then:
    on such a name [run] returns or raises what the function of the
    operation does, which is never the "not available" error, and on any
    other name it raises that error; [run] never changes the registry;
    and the table at the time of a call matters to [run] and
    [get_history] only through its history flag, which both read at
    every call. *)
Theorem flags_read_at_construction (F : dict bool) (c : AgileCalculator) :
  __init__ F = Ok c ->
  (forall op : string,
     is_Some (ops c !! op) <-> op ∈ op_names /\ dict_get F op = Some true) /\
  (forall (F' : dict bool) (self : AgileCalculator) (op : string) (a b : value),
     ops self = ops c ->
     (fst (run F' op a b self) <> Raise (unavailable op) <->
        op ∈ op_names /\ dict_get F op = Some true) /\
     (op ∈ op_names /\ dict_get F op = Some true ->
        exists f, op_fun op = Some f /\ fst (run F' op a b self) = f a b)) /\
  (forall (F' : dict bool) (op : string) (a b : value) (self : AgileCalculator),
     ops (snd (run F' op a b self)) = ops self) /\
  (forall (F1 F2 : dict bool) (op : string) (a b : value) (self : AgileCalculator),
     truthy (dict_get F1 "history") = truthy (dict_get F2 "history") ->
     run F1 op a b self = run F2 op a b self /\
     get_history F1 self = get_history F2 self).
Proof.
  intros Hinit.
  assert (forall op : string,
            is_Some (ops c !! op) <-> op ∈ op_names /\ dict_get F op = Some true) as Hreg.
  { intros op. rewrite (init_lookup F c op Hinit), <- op_fun_names.
    destruct (dict_get F op) as [[]|]; cbn.
    + split; [intros H; split; [exact H|reflexivity]|intros [H _]; exact H].
    + split; [intros [? [=]]|intros [_ [=]]].
    + split; [intros [? [=]]|intros [_ [=]]]. }
  split; [exact Hreg|]. split; [|split].
  - intros F' self op a b Hops.
    assert (fst (run F' op a b self) =
            match ops c !! op with
            | Some f => f a b
            | None => Raise (unavailable op)
            end) as Hrun.
    { rewrite run_eq, Hops. destruct (ops c !! op) as [f|]; [|reflexivity].
      destruct (f a b); reflexivity. }
    rewrite Hrun. specialize (Hreg op).
    pose proof (init_lookup F c op Hinit) as Hl.
    destruct (ops c !! op) as [f|].
    + assert (op_fun op = Some f) as Hf
        by (destruct (truthy _); [symmetry; exact Hl|discriminate]).
      split.
      * split; [intros _; apply Hreg; eauto|intros _].
        apply (op_fun_no_ValueError op f a b _ Hf).
      * intros _. exists f. split; [exact Hf|reflexivity].
    + split.
      * split; [intros H; contradiction H; reflexivity|].
        intros [x Hx]%Hreg. discriminate Hx.
      * intros [x Hx]%Hreg. discriminate Hx.
  - intros F' op a b self. apply run_ops.
  - intros F1 F2 op a b self HF. split.
    + rewrite !run_eq, HF. reflexivity.
    + unfold get_history. rewrite HF. reflexivity.
Qed.

Lemma flags_read_at_construction_witness :
  (is_Some (ops fresh !! "divide") <->
     "divide" ∈ op_names /\ dict_get FEATURES "divide" = Some true) /\
  is_Some (ops fresh !! "divide") /\
  (exists f, op_fun "add" = Some f /\
     fst (run FEATURES_history_on "add" (VInt 2) (VInt 3) fresh) = f (VInt 2) (VInt 3)) /\
  fst (run FEATURES_history_on "add" (VInt 2) (VInt 3) fresh) <> Raise (unavailable "add").
Proof.
  pose proof (flags_read_at_construction FEATURES fresh init_FEATURES) as (H1 & H2 & _).
  assert ("add" ∈ op_names /\ dict_get FEATURES "add" = Some true) as Hadd
    by (split; [left|reflexivity]).
  destruct (H2 FEATURES_history_on fresh "add" (VInt 2) (VInt 3) eq_refl) as [Hiff Hfun].
  repeat apply conj.
  - apply H1.
  - apply H1.
  - exists safe_divide. reflexivity.
  - apply Hfun, Hadd.
  - apply Hiff, Hadd.
Defined.

End AgileClaims.

(** ** The results of the operations *)

Section AgileResults.
Import Agile AgileFacts Rounding.

Lemma F2Q_nonzero (s : bool) (m : positive) (e : Z) : ~ (F2Q s m e == 0)%Q.
Proof.
  rewrite F2Q_eq. pose proof (pos_value_pos m e) as H.
  destruct s; cbn; lra.
Qed.

(** [b != 0] on a finite float. *)
Lemma py_ne_zero (b : spec_float) :
  is_finite b = true -> py_ne (VFloat b) (VInt 0) = negb (is_zero b).
Proof.
  destruct b as [s|s| |s m e]; try discriminate; intros _; [reflexivity|].
  unfold py_ne, py_eq. cbn.
  destruct (Qeq_bool (F2Q s m e) (inject_Z 0)) eqn:H; [|reflexivity].
  apply Qeq_bool_iff in H. contradiction (F2Q_nonzero s m e H).
Qed.

Lemma safe_divide_float (a b : spec_float) :
  is_finite b = true ->
  safe_divide (VFloat a) (VFloat b) =
    Ok (VFloat (if is_zero b then inf else SFdiv prec emax a b)).
Proof.
  intros Hb. unfold safe_divide. rewrite (py_ne_zero b Hb).
  destruct b as [s|s| |s m e]; try discriminate; reflexivity.
Qed.

(** C1, amended: for an operation enabled at construction and finite
    floats [a] and [b], [run("divide", a, b)] with [b] zero is exactly
    positive infinity; in every other case, when the mathematically
    correct result is below 2^23 in magnitude, [run] returns a finite
    float within 10^-9 of it.  On two [int]s, [add], [subtract] and
    [multiply] return the exact integer, and [divide] by the integer 0
    returns positive infinity. *)
Theorem run_within_tolerance (F F' : dict bool) (c : AgileCalculator) (op : string)
    (a b : spec_float) :
  __init__ F = Ok c ->
  is_Some (ops c !! op) ->
  is_finite a = true -> is_finite b = true ->
  (op = "divide" -> is_zero b = true ->
     fst (run F' op (VFloat a) (VFloat b) c) = Ok (VFloat inf)) /\
  (forall x : Q,
     (op = "divide" -> is_zero b = false) ->
     exact op (SF2Q a) (SF2Q b) = Some x ->
     (Qabs x < 2 ^ 23)%Q ->
     exists r : spec_float,
       fst (run F' op (VFloat a) (VFloat b) c) = Ok (VFloat r) /\
       is_finite r = true /\
       (Qabs (SF2Q r - x) < 1 # 1000000000)%Q) /\
  (forall x y : Z,
     (op = "add" -> fst (run F' op (VInt x) (VInt y) c) = Ok (VInt (x + y))) /\
     (op = "subtract" -> fst (run F' op (VInt x) (VInt y) c) = Ok (VInt (x - y))) /\
     (op = "multiply" -> fst (run F' op (VInt x) (VInt y) c) = Ok (VInt (x * y))) /\
     (op = "divide" -> fst (run F' op (VInt x) (VInt 0) c) = Ok (VFloat inf))).
Proof.
  intros Hinit [f Hf] Ha Hb.
  assert (op_fun op = Some f) as Hop.
  { rewrite (init_lookup F c op Hinit) in Hf. destruct (truthy _); [exact Hf|discriminate]. }
  assert (forall u v r, f u v = Ok r -> fst (run F' op u v c) = Ok r) as Hrun.
  { intros u v r Hr. rewrite run_eq, Hf, Hr. reflexivity. }
  unfold op_fun in Hop. unfold exact.
  destruct (String.eqb_spec op "add") as [->|Hadd].
  { injection Hop as <-. repeat apply conj; try discriminate.
    - intros x _ [= <-] Hx. destruct (SFadd_close a b Ha Hb Hx) as [Hfin Hclose].
      exists (SFadd prec emax a b). repeat split; [apply Hrun; reflexivity|exact Hfin|exact Hclose].
    - intros x y. repeat apply conj; try discriminate. intros _. apply Hrun. reflexivity. }
  destruct (String.eqb_spec op "subtract") as [->|Hsub].
  { injection Hop as <-. repeat apply conj; try discriminate.
    - intros x _ [= <-] Hx. destruct (SFsub_close a b Ha Hb Hx) as [Hfin Hclose].
      exists (SFsub prec emax a b). repeat split; [apply Hrun; reflexivity|exact Hfin|exact Hclose].
    - intros x y. repeat apply conj; try discriminate. intros _. apply Hrun. reflexivity. }
  destruct (String.eqb_spec op "multiply") as [->|Hmul].
  { injection Hop as <-. repeat apply conj; try discriminate.
    - intros x _ [= <-] Hx. destruct (SFmul_close a b Ha Hb Hx) as [Hfin Hclose].
      exists (SFmul prec emax a b). repeat split; [apply Hrun; reflexivity|exact Hfin|exact Hclose].
    - intros x y. repeat apply conj; try discriminate. intros _. apply Hrun. reflexivity. }
  destruct (String.eqb_spec op "divide") as [->|Hdiv]; [|discriminate].
  injection Hop as <-. repeat apply conj.
  - intros _ Hz. apply Hrun. rewrite (safe_divide_float a b Hb), Hz. reflexivity.
  - intros x Hnz [= <-] Hx. specialize (Hnz eq_refl).
    assert (~ (SF2Q b == 0)%Q) as Hb0.
    { destruct b as [s|s| |s m e]; try discriminate. apply F2Q_nonzero. }
    destruct (SFdiv_close a b Ha Hb Hb0 Hx) as [Hfin Hclose].
    exists (SFdiv prec emax a b). repeat split; [|exact Hfin|exact Hclose].
    apply Hrun. rewrite (safe_divide_float a b Hb), Hnz. reflexivity.
  - intros x y. repeat apply conj; try discriminate. intros _. apply Hrun. reflexivity.
Qed.

End AgileResults.

(** C1, as stated, fails.  The doubles 2^53 and 1 are finite and their
    sum 2^53 + 1 is not a double: [run("add", 2^53, 1)] returns 2^53,
    which is 1 away from the mathematically correct result.  The sum of
    the largest double with itself is positive infinity. *)
Lemma run_add_rounds :
  let a := S754_finite false 4503599627370496 1 in
  let b := S754_finite false 4503599627370496 (-52) in
  let big := S754_finite false 9007199254740991 971 in
  valid_binary prec emax a = true /\ valid_binary prec emax b = true /\
  valid_binary prec emax big = true /\
  fst (Agile.run Agile.FEATURES "add" (VFloat a) (VFloat b) fresh) = Ok (VFloat a) /\
  (SF2Q a + SF2Q b == 9007199254740993 # 1)%Q /\
  (SF2Q a == 9007199254740992 # 1)%Q /\
  ~ (Qabs (SF2Q a - (SF2Q a + SF2Q b)) < 1 # 1000000000)%Q /\
  fst (Agile.run Agile.FEATURES "add" (VFloat big) (VFloat big) fresh) = Ok (VFloat inf).
Proof.
  cbv zeta. repeat apply conj; try (vm_compute; reflexivity).
  vm_compute. discriminate.
Qed.

Lemma run_within_tolerance_witness :
  let a := S754_finite false 5629499534213120 (-49) in
  let b := S754_finite false 4503599627370496 (-50) in
  exists r : spec_float,
    fst (Agile.run Agile.FEATURES "divide" (VFloat a) (VFloat b) fresh) = Ok (VFloat r) /\
    is_finite r = true /\
    (Qabs (SF2Q r - SF2Q a / SF2Q b) < 1 # 1000000000)%Q.
Proof.
  cbv zeta.
  apply (proj1 (proj2 (run_within_tolerance Agile.FEATURES Agile.FEATURES fresh "divide"
           (S754_finite false 5629499534213120 (-49))
           (S754_finite false 4503599627370496 (-50))
           eq_refl (ex_intro _ Agile.safe_divide eq_refl) eq_refl eq_refl))).
  - reflexivity.
  - reflexivity.
  - vm_compute. reflexivity.
Defined.

(** ** The command line of the toggleable calculator *)

Section AgileCLI.
Import Agile AgileFacts.

Variable float : string -> option spec_float.
Variable float_msg : string -> string.

Lemma tests_pass : _tests FEATURES = Ok tt.
Proof. vm_compute. reflexivity. Qed.

(** On two floats every registered function returns. *)
Lemma op_fun_float (op : string) (f : binop) (a b : spec_float) :
  op_fun op = Some f -> exists r, f (VFloat a) (VFloat b) = Ok (VFloat r).
Proof.
  unfold op_fun.
  destruct (String.eqb op "add"); [intros [= <-]; cbn; eauto|].
  destruct (String.eqb op "subtract"); [intros [= <-]; cbn; eauto|].
  destruct (String.eqb op "multiply"); [intros [= <-]; cbn; eauto|].
  destruct (String.eqb op "divide"); [intros [= <-]|discriminate].
  unfold safe_divide, py_ne, py_eq.
  destruct b as [s|s| |s m e]; cbn; eauto.
  destruct (Qeq_bool _ _); cbn; eauto.
Qed.

Lemma main_FEATURES (argv : list string) (out : stdout) :
  main float float_msg FEATURES argv out = run_cli float float_msg FEATURES argv out.
Proof. unfold main, mbind, M_bind, lift. rewrite tests_pass. reflexivity. Qed.

Lemma for_each_print {A} (xs : list A) (body : A -> M stdout unit) (g : A -> line) :
  (forall x out, body x out = (Ok tt, out ++ [g x])) ->
  forall out, for_each xs body out = (Ok tt, out ++ map g xs).
Proof.
  intros Hbody. induction xs as [|x xs IH]; intros out; cbn.
  - rewrite app_nil_r. reflexivity.
  - unfold mbind, M_bind. rewrite Hbody, IH, <- app_assoc. reflexivity.
Qed.

(** C6, amended: when the table holds the four operation flags, the
    command line prints the usage text and returns when there is no
    argument, or when the first argument is not [backlog] or [features]
    and the arguments are not three; it prints the backlog or the flags
    when the first argument asks for them; with three arguments whose
    operands [float] accepts it prints the result of an enabled
    operation, or the line "Not available yet: ..." for any other name,
    and returns; in all these cases the exit status is 0.  An operand
    that [float] rejects ends the command line with the [ValueError] of
    the conversion and nothing printed.  With the table of the source the
    script is its tests, which pass, followed by the command line. *)
Theorem agile_cli_exit_0 (F : dict bool) (c : AgileCalculator) (argv : list string)
    (out : stdout) :
  __init__ F = Ok c ->
  (drop 1 argv = [] ->
     run_cli float float_msg F argv out = (Ok tt, out ++ [Text run_cli_doc])) /\
  (forall arg0 rest,
     drop 1 argv = arg0 :: rest -> arg0 <> "backlog" -> arg0 <> "features" ->
     length rest <> 2%nat ->
     run_cli float float_msg F argv out = (Ok tt, out ++ [Text run_cli_doc])) /\
  (forall rest,
     drop 1 argv = "backlog" :: rest ->
     run_cli float float_msg F argv out =
       (Ok tt, out ++ Text "Product Backlog:" ::
                 map (fun item => Text (" - " +:+ item)) PRODUCT_BACKLOG)) /\
  (forall rest,
     drop 1 argv = "features" :: rest ->
     run_cli float float_msg F argv out =
       (Ok tt, out ++ Text "Feature Toggles:" ::
                 map (fun kv => Text (" - " +:+ fst kv +:+ ": " +:+
                                      (if snd kv : bool then "ON" else "OFF"))) F)) /\
  (forall op a_str b_str,
     drop 1 argv = [op; a_str; b_str] -> op <> "backlog" -> op <> "features" ->
     match float a_str, float b_str with
     | Some a, Some b =>
         exit_status (fst (run_cli float float_msg F argv out)) = 0 /\
         match ops c !! op with
         | None =>
             run_cli float float_msg F argv out =
               (Ok tt, out ++ [Text ("Not available yet: Feature '" +:+ op +:+
                                     "' not available yet (toggle off or not built).")])
         | Some f =>
             exists r, f (VFloat a) (VFloat b) = Ok (VFloat r) /\
               run_cli float float_msg F argv out = (Ok tt, out ++ [Num (VFloat r)])
         end
     | None, _ =>
         run_cli float float_msg F argv out = (Raise (ValueError (float_msg a_str)), out)
     | Some _, None =>
         run_cli float float_msg F argv out = (Raise (ValueError (float_msg b_str)), out)
     end) /\
  main float float_msg FEATURES argv out = run_cli float float_msg FEATURES argv out.
Proof.
  intros Hinit. repeat apply conj.
  - intros Hargs. unfold run_cli. rewrite Hargs. reflexivity.
  - intros arg0 rest Hargs Hb Hf Hlen. unfold run_cli. rewrite Hargs.
    apply String.eqb_neq in Hb, Hf. rewrite Hb, Hf.
    destruct rest as [|x [|y [|z rest]]]; try reflexivity.
    contradiction Hlen. reflexivity.
  - intros rest Hargs. unfold run_cli. rewrite Hargs. cbn.
    unfold mbind, M_bind at 1. cbn.
    unfold mret, M_ret. rewrite <- !app_assoc. reflexivity.
  - intros rest Hargs. unfold run_cli. rewrite Hargs. cbn.
    unfold mbind, M_bind at 1. cbn.
    rewrite (for_each_print _ _ (fun kv => Text (" - " +:+ fst kv +:+ ": " +:+
                                      (if snd kv : bool then "ON" else "OFF"))))
      by (intros [k v] o; reflexivity).
    rewrite <- app_assoc. reflexivity.
  - intros op a_str b_str Hargs Hb Hf.
    apply String.eqb_neq in Hb, Hf.
    destruct (float a_str) as [a|] eqn:Ha.
    2:{ unfold run_cli. rewrite Hargs, Hb, Hf.
        unfold mbind, M_bind, float_arg. rewrite Ha. reflexivity. }
    destruct (float b_str) as [b|] eqn:Hbf.
    2:{ unfold run_cli. rewrite Hargs, Hb, Hf.
        unfold mbind, M_bind, float_arg. rewrite Ha, Hbf. reflexivity. }
    assert (run_cli float float_msg F argv out =
            print_run F c op (VFloat a) (VFloat b) out) as Hrun.
    { unfold run_cli. rewrite Hargs, Hb, Hf.
      unfold mbind, M_bind, float_arg, lift. rewrite Ha, Hbf, Hinit. reflexivity. }
    rewrite Hrun. unfold print_run. rewrite run_eq.
    pose proof (init_lookup F c op Hinit) as Hl.
    destruct (ops c !! op) as [f|] eqn:Hop.
    + assert (op_fun op = Some f) as Hfun.
      { destruct (truthy _); [symmetry; exact Hl|discriminate]. }
      destruct (op_fun_float op f a b Hfun) as [r Hr].
      rewrite Hr. cbn. split; [reflexivity|].
      exists r. split; reflexivity.
    + cbn. split; reflexivity.
  - apply main_FEATURES.
Qed.

End AgileCLI.

(** C6, as stated, fails: an operand that [float] rejects is not met
    with the usage text and status 0.  The conversion is outside the
    [try], its [ValueError] ends the script with nothing printed and
    status 1. *)
Lemma agile_cli_bad_operand :
  Agile.program ["agile_calculator.py"; "add"; "x"; "3"] =
    (Raise (ValueError "could not convert string to float: 'x'"), []) /\
  exit_status (fst (Agile.program ["agile_calculator.py"; "add"; "x"; "3"])) = 1.
Proof. vm_compute. split; reflexivity. Qed.

Lemma agile_cli_exit_0_witness :
  Agile.program ["agile_calculator.py"; "divide"; "10"; "0"] =
    (Ok tt, [Num (VFloat inf)]) /\
  Agile.program ["agile_calculator.py"; "power"; "10"; "0"] =
    (Ok tt, [Text "Not available yet: Feature 'power' not available yet (toggle off or not built)."]) /\
  Agile.program ["agile_calculator.py"; "add"; "1"] = (Ok tt, [Text Agile.run_cli_doc]).
Proof.
  pose proof (agile_cli_exit_0 py_float py_float_msg Agile.FEATURES fresh) as H.
  unfold Agile.program. split; [|split].
  - destruct (H ["agile_calculator.py"; "divide"; "10"; "0"] [] init_FEATURES)
      as (_ & _ & _ & _ & H3 & H4).
    rewrite H4.
    destruct (H3 "divide" "10" "0" eq_refl) as (_ & r & Hr & ->);
      [discriminate|discriminate|].
    cbn in Hr. injection Hr as <-. reflexivity.
  - destruct (H ["agile_calculator.py"; "power"; "10"; "0"] [] init_FEATURES)
      as (_ & _ & _ & _ & H3 & H4).
    rewrite H4.
    destruct (H3 "power" "10" "0" eq_refl) as (_ & ->);
      [discriminate|discriminate|]. reflexivity.
  - destruct (H ["agile_calculator.py"; "add"; "1"] [] init_FEATURES)
      as (_ & H2 & _ & _ & _ & H4).
    rewrite H4. apply (H2 "add" ["1"] eq_refl); [discriminate|discriminate|].
    cbn. discriminate.
Defined.

(** ** The fixed calculator *)

Section WaterfallClaims.
Import Waterfall.

Variable float : string -> option spec_float.
Variable float_msg : string -> string.

Lemma self_test_pass : _self_test calc = Ok tt.
Proof. vm_compute. reflexivity. Qed.

Lemma main_calc (argv : list string) (out : stdout) :
  main float float_msg calc argv out = run_cli float float_msg calc argv out.
Proof. unfold main, mbind, M_bind, lift. rewrite self_test_pass. reflexivity. Qed.

(** C7, amended: with a number of arguments other than three the script
    prints the usage line and exits with status 1; with three arguments
    whose two operands [float] accepts, it prints the sum for [add] and
    the difference for [subtract] and ends with status 0, and for any
    other name it prints the rejection line and exits with status 2. *)
Theorem waterfall_cli_paths (argv : list string) (out : stdout) :
  (length argv <> 4%nat ->
     main float float_msg calc argv out = (Raise (SystemExit 1), out ++ [Text usage])) /\
  (forall prog op a_str b_str a b,
     argv = [prog; op; a_str; b_str] ->
     float a_str = Some a -> float b_str = Some b ->
     (op = "add" ->
        main float float_msg calc argv out =
          (Ok tt, out ++ [Num (VFloat (SFadd prec emax a b))])) /\
     (op = "subtract" ->
        main float float_msg calc argv out =
          (Ok tt, out ++ [Num (VFloat (SFsub prec emax a b))])) /\
     (op <> "add" -> op <> "subtract" ->
        main float float_msg calc argv out =
          (Raise (SystemExit 2), out ++ [Text rejection]))).
Proof.
  rewrite main_calc. split.
  - intros Hlen. unfold run_cli.
    destruct argv as [|x0 [|x1 [|x2 [|x3 [|x4 rest]]]]]; try reflexivity.
    contradiction Hlen. reflexivity.
  - intros prog op a_str b_str a b -> Ha Hb.
    unfold run_cli, mbind, M_bind, float_arg. rewrite Ha, Hb. cbn.
    repeat apply conj.
    + intros ->. reflexivity.
    + intros ->. reflexivity.
    + intros Hadd%String.eqb_neq Hsub%String.eqb_neq. rewrite Hadd, Hsub. reflexivity.
Qed.

(** C10: with three arguments of which an operand is not accepted by
    [float], the script ends with the [ValueError] of the conversion of
    the first such operand, whatever the operation name: nothing is
    printed, neither the usage line nor the rejection line, and the
    outcome is not an exit through [sys.exit]. *)
Theorem waterfall_cli_conversion_first (prog op a_str b_str : string) (out : stdout) :
  float a_str = None \/ float b_str = None ->
  exists s : string,
    (s = a_str \/ s = b_str) /\ float s = None /\
    main float float_msg calc [prog; op; a_str; b_str] out =
      (Raise (ValueError (float_msg s)), out) /\
    class_of (ValueError (float_msg s)) <> CSystemExit.
Proof.
  intros H. rewrite main_calc.
  unfold run_cli, mbind, M_bind, float_arg.
  destruct (float a_str) as [a|] eqn:Ha.
  - destruct H as [H|H]; [discriminate|].
    exists b_str. rewrite H. repeat split; auto; discriminate.
  - exists a_str. repeat split; auto; discriminate.
Qed.

(** C9: each script is its self-tests followed by its command line:
    when the tests return, the script goes on with the command line, and
    when they raise, the script ends with that exception and the output
    as it was, nothing printed.  The tests of both scripts pass, with the
    table and the [calc] of the source. *)
Theorem self_tests_first :
  (forall (F : dict bool) (argv : list string) (out : stdout),
     Agile.main float float_msg F argv out =
       match Agile._tests F with
       | Ok _ => Agile.run_cli float float_msg F argv out
       | Raise e => (Raise e, out)
       end) /\
  Agile._tests Agile.FEATURES = Ok tt /\
  (forall (c : Calculator) (argv : list string) (out : stdout),
     main float float_msg c argv out =
       match _self_test c with
       | Ok _ => run_cli float float_msg c argv out
       | Raise e => (Raise e, out)
       end) /\
  _self_test calc = Ok tt.
Proof.
  repeat apply conj.
  - intros F argv out. unfold Agile.main, mbind, M_bind, lift.
    destruct (Agile._tests F); reflexivity.
  - apply tests_pass.
  - intros c argv out. unfold main, mbind, M_bind, lift.
    destruct (_self_test c); reflexivity.
  - apply self_test_pass.
Qed.

End WaterfallClaims.

(** A failing self-test ends either script before anything is printed:
    with the history switched on the tests of the toggleable calculator
    raise, and so do the tests of the fixed calculator on an object whose
    [add] subtracts. *)
Example agile_tests_fail_first :
  Agile.main py_float py_float_msg FEATURES_history_on ["agile_calculator.py"; "backlog"] [] =
    (Raise (AssertionError "History should not be accessible when feature is off."), []).
Proof. vm_compute. reflexivity. Qed.

Example waterfall_tests_fail_first :
  Waterfall.main py_float py_float_msg
    {| Waterfall.add := py_sub; Waterfall.subtract := py_sub |}
    ["waterfall_calculator.py"; "add"; "5"; "3"] [] =
    (Raise (AssertionError ""), []).
Proof. vm_compute. reflexivity. Qed.

(** C8: on two [int]s the methods of [Calculator] return the exact sum
    and the exact difference, on any two numbers they return Python's
    [a + b] and [a - b], which on two [float]s is the binary64 sum and
    difference; [add(5, 3) == 8] and [subtract(5, 3) == 2] hold, the
    results being the integers 8 and 2 themselves. *)
Theorem calculator_add_subtract :
  (forall x y : Z,
     Waterfall.add Waterfall.calc (VInt x) (VInt y) = Ok (VInt (x + y)) /\
     Waterfall.subtract Waterfall.calc (VInt x) (VInt y) = Ok (VInt (x - y))) /\
  (forall a b : value,
     Waterfall.add Waterfall.calc a b = py_add a b /\
     Waterfall.subtract Waterfall.calc a b = py_sub a b) /\
  (forall x y : spec_float,
     Waterfall.add Waterfall.calc (VFloat x) (VFloat y) = Ok (VFloat (SFadd prec emax x y)) /\
     Waterfall.subtract Waterfall.calc (VFloat x) (VFloat y) =
       Ok (VFloat (SFsub prec emax x y))) /\
  Waterfall.add Waterfall.calc (VInt 5) (VInt 3) = Ok (VInt 8) /\
  Waterfall.subtract Waterfall.calc (VInt 5) (VInt 3) = Ok (VInt 2) /\
  py_eq (VInt 8) (VInt 8) = true /\ py_eq (VInt 2) (VInt 2) = true.
Proof.
  repeat apply conj; try reflexivity; intros; split; reflexivity.
Qed.

(** C7, as stated, fails: with three arguments and an operation that is
    neither [add] nor [subtract] the script does not always print the
    rejection line and exit with status 2. *)
Lemma waterfall_cli_bad_operand :
  ~ (forall op a_str b_str : string,
       op <> "add" -> op <> "subtract" ->
       Waterfall.program ["waterfall_calculator.py"; op; a_str; b_str] =
         (Raise (SystemExit 2), [Text Waterfall.rejection])).
Proof.
  intros H. specialize (H "multiply" "2" "c").
  discriminate H; discriminate.
Qed.

Lemma waterfall_cli_paths_witness :
  Waterfall.program ["waterfall_calculator.py"; "multiply"; "2"; "3"] =
    (Raise (SystemExit 2), [Text Waterfall.rejection]) /\
  Waterfall.program ["waterfall_calculator.py"; "add"] =
    (Raise (SystemExit 1), [Text Waterfall.usage]).
Proof.
  unfold Waterfall.program. split.
  - apply (proj2 (waterfall_cli_paths py_float py_float_msg
                    ["waterfall_calculator.py"; "multiply"; "2"; "3"] [])
             "waterfall_calculator.py" "multiply" "2" "3"
             (S754_finite false 4503599627370496 (-51))
             (S754_finite false 6755399441055744 (-51)) eq_refl);
      [reflexivity|reflexivity|discriminate|discriminate].
  - apply (proj1 (waterfall_cli_paths py_float py_float_msg
                    ["waterfall_calculator.py"; "add"] [])).
    cbn. discriminate.
Defined.

Lemma waterfall_cli_conversion_first_witness :
  Waterfall.program ["waterfall_calculator.py"; "multiply"; "2"; "c"] =
    (Raise (ValueError "could not convert string to float: 'c'"), []).
Proof.
  destruct (waterfall_cli_conversion_first py_float py_float_msg
              "waterfall_calculator.py" "multiply" "2" "c" [])
    as (s & [-> | ->] & Hs & Hrun & _).
  - right. reflexivity.
  - discriminate Hs.
  - exact Hrun.
Defined.

(** * More on the toggleable calculator *)

Section AgileMore.
Import Agile AgileFacts.

(** X1: the constructor reads the four operation flags in the order [add],
    [subtract], [multiply], [divide]: it raises [KeyError] for the first
    of them the table lacks, and builds an instance with an empty
    history when the table has the four; the [history] key is not
    needed. *)
Theorem init_missing_key (F : dict bool) :
  match dict_get F "add", dict_get F "subtract",
        dict_get F "multiply", dict_get F "divide" with
  | None, _, _, _ => __init__ F = Raise (KeyError "add")
  | Some _, None, _, _ => __init__ F = Raise (KeyError "subtract")
  | Some _, Some _, None, _ => __init__ F = Raise (KeyError "multiply")
  | Some _, Some _, Some _, None => __init__ F = Raise (KeyError "divide")
  | Some _, Some _, Some _, Some _ =>
      exists c, __init__ F = Ok c /\ history c = []
  end.
Proof.
  destruct (dict_get F "add") as [b1|] eqn:H1;
    [|unfold __init__, dict_getitem; rewrite H1; reflexivity].
  destruct (dict_get F "subtract") as [b2|] eqn:H2;
    [|unfold __init__, dict_getitem; rewrite H1, H2; reflexivity].
  destruct (dict_get F "multiply") as [b3|] eqn:H3;
    [|unfold __init__, dict_getitem; rewrite H1, H2, H3; reflexivity].
  destruct (dict_get F "divide") as [b4|] eqn:H4;
    [|unfold __init__, dict_getitem; rewrite H1, H2, H3, H4; reflexivity].
  assert (exists c, __init__ F = Ok c) as [c Hc].
  { unfold __init__, dict_getitem. rewrite H1, H2, H3, H4. cbn. eauto. }
  exists c. split; [exact Hc|].
  apply init_inv in Hc as (_ & _ & _ & _ & _ & _ & _ & _ & Hh & _). exact Hh.
Qed.

(** One call: what it adds to the history. *)
Lemma run_step (F : dict bool) (op : string) (a b : value) (self : AgileCalculator) :
  history (snd (run F op a b self)) = history self ++ recorded (ops self) (F, op, a, b).
Proof.
  rewrite run_eq. unfold recorded.
  destruct (ops self !! op) as [f|].
  - destruct (f a b) as [r|e]; cbn.
    + destruct (truthy _); cbn; [reflexivity|rewrite app_nil_r; reflexivity].
    + destruct (truthy _); rewrite app_nil_r; reflexivity.
  - cbn. destruct (truthy _); rewrite app_nil_r; reflexivity.
Qed.

Lemma run_calls_ops (cs : list call) (self : AgileCalculator) :
  ops (run_calls cs self) = ops self.
Proof.
  revert self. induction cs as [|[[[F op] a] b] cs IH]; intros self; cbn [run_calls].
  - reflexivity.
  - rewrite IH. apply run_ops.
Qed.

(** The entries of the history after some calls: those that were there,
    and those the calls recorded. *)
Lemma run_calls_entries (cs : list call) (self : AgileCalculator) (e : entry) :
  e ∈ history (run_calls cs self) ->
  e ∈ history self \/ exists c, c ∈ cs /\ e ∈ recorded (ops self) c.
Proof.
  revert self. induction cs as [|[[[F op] a] b] cs IH]; intros self; cbn [run_calls].
  - auto.
  - intros [Hin|(c & Hc & Hin)]%IH.
    + rewrite run_step in Hin. apply elem_of_app in Hin as [Hin|Hin]; [auto|].
      right. exists (F, op, a, b). split; [left|exact Hin].
    + rewrite run_ops in Hin. right. exists c. split; [right; exact Hc|exact Hin].
Qed.

(** X2: a sequence of calls leaves the registry as it was and extends the
    history, at its end and in the order of the calls, by one entry for
    each call that returned while the history flag was true; it removes
    and changes nothing. *)
Theorem run_calls_history (cs : list call) (self : AgileCalculator) :
  history (run_calls cs self) = history self ++ concat (map (recorded (ops self)) cs) /\
  ops (run_calls cs self) = ops self.
Proof.
  split; [|apply run_calls_ops].
  revert self. induction cs as [|[[[F op] a] b] cs IH]; intros self; cbn [run_calls map concat].
  - rewrite app_nil_r. reflexivity.
  - rewrite IH, run_ops, run_step, app_assoc. reflexivity.
Qed.

(** X3: while the history flag is false or absent, no call changes the
    instance, whatever it returns or raises. *)
Theorem run_calls_history_off (cs : list call) (self : AgileCalculator) :
  (forall F op a b, (F, op, a, b) ∈ cs -> truthy (dict_get F "history") = false) ->
  run_calls cs self = self.
Proof.
  revert self. induction cs as [|[[[F op] a] b] cs IH]; intros self Hoff; cbn [run_calls].
  - reflexivity.
  - assert (snd (run F op a b self) = self) as ->.
    { rewrite run_eq, (Hoff F op a b) by (left).
      destruct (ops self !! op) as [f|]; [|reflexivity].
      destruct (f a b); reflexivity. }
    apply IH. intros F' op' a' b' Hin. apply (Hoff F' op' a' b'). right. exact Hin.
Qed.

Lemma run_calls_history_off_witness :
  run_calls [(FEATURES, "add", VInt 2, VInt 3); (FEATURES, "power", VInt 2, VInt 3)] fresh
  = fresh.
Proof.
  apply run_calls_history_off.
  intros F op a b Hin.
  apply elem_of_cons in Hin as [[= -> _ _ _]|Hin]; [reflexivity|].
  apply elem_of_cons in Hin as [[= -> _ _ _]|Hin]; [reflexivity|].
  apply elem_of_nil in Hin. destruct Hin.
Defined.

(** X4: on an instance built by the constructor and used since, every entry
    [(op, a, b, r)] of the history is a call that returned: [op] is one
    of the four operations and [r] is what its function gives on [a] and
    [b]. *)
Theorem history_entries_sound (F : dict bool) (c : AgileCalculator) (cs : list call)
    (op : string) (a b r : value) :
  __init__ F = Ok c ->
  (op, a, b, r) ∈ history (run_calls cs c) ->
  exists f, op_fun op = Some f /\ f a b = Ok r.
Proof.
  intros Hinit Hin.
  pose proof Hinit as (_ & _ & _ & _ & _ & _ & _ & _ & Hh & _)%init_inv.
  apply run_calls_entries in Hin as [Hin|([[[F' op'] a'] b'] & _ & Hin)].
  { rewrite Hh in Hin. apply elem_of_nil in Hin. destruct Hin. }
  unfold recorded in Hin.
  destruct (truthy (dict_get F' "history")); [|apply elem_of_nil in Hin; destruct Hin].
  pose proof (init_lookup F c op' Hinit) as Hlook.
  destruct (ops c !! op') as [f|]; [|apply elem_of_nil in Hin; destruct Hin].
  destruct (f a' b') as [r'|] eqn:Hf; [|apply elem_of_nil in Hin; destruct Hin].
  apply list_elem_of_singleton in Hin. injection Hin as -> -> -> ->.
  exists f. split; [|exact Hf].
  destruct (truthy (dict_get F op')); [symmetry; exact Hlook|discriminate].
Qed.

Lemma history_entries_sound_witness :
  exists f, op_fun "add" = Some f /\ f (VInt 2) (VInt 3) = Ok (VInt 5).
Proof.
  apply (history_entries_sound FEATURES fresh
           [(FEATURES_history_on, "add", VInt 2, VInt 3)] "add" (VInt 2) (VInt 3) (VInt 5)).
  - reflexivity.
  - vm_compute. left.
Defined.

(** X5: what a call returns or raises depends on the registry alone: not on
    the flags at the time of the call, and not on the calls made on the
    instance before. *)
Theorem run_result_stateless (F F' : dict bool) (cs : list call) (self : AgileCalculator)
    (op : string) (a b : value) :
  fst (run F op a b (run_calls cs self)) = fst (run F' op a b self).
Proof.
  rewrite !run_eq, run_calls_ops.
  destruct (ops self !! op) as [f|]; [|reflexivity].
  destruct (f a b); reflexivity.
Qed.

(** X6: on two floats, finite or not, an operation enabled at construction
    always returns a float: [run] raises nothing. *)
Theorem run_float_returns (F F' : dict bool) (c : AgileCalculator) (op : string)
    (a b : spec_float) :
  __init__ F = Ok c ->
  is_Some (ops c !! op) ->
  exists r : spec_float, fst (run F' op (VFloat a) (VFloat b) c) = Ok (VFloat r).
Proof.
  intros Hinit [f Hf].
  assert (op_fun op = Some f) as Hop.
  { rewrite (init_lookup F c op Hinit) in Hf. destruct (truthy _); [exact Hf|discriminate]. }
  unfold op_fun in Hop. rewrite run_eq, Hf.
  destruct (String.eqb op "add"); [injection Hop as <-; cbn; eauto|].
  destruct (String.eqb op "subtract"); [injection Hop as <-; cbn; eauto|].
  destruct (String.eqb op "multiply"); [injection Hop as <-; cbn; eauto|].
  destruct (String.eqb op "divide"); [injection Hop as <-|discriminate].
  unfold safe_divide, py_ne, py_eq.
  destruct b as [s|s| |s m e]; cbn; eauto.
  destruct (Qeq_bool _ _); cbn; eauto.
Qed.

Lemma run_float_returns_witness :
  exists r : spec_float,
    fst (run FEATURES "multiply" (VFloat S754_nan) (VFloat (S754_infinity true)) fresh)
      = Ok (VFloat r).
Proof.
  apply (run_float_returns FEATURES FEATURES fresh "multiply" S754_nan (S754_infinity true)).
  - reflexivity.
  - exists py_mul. reflexivity.
Defined.

(** X7: the tests of the script pass exactly when the four operation flags
    are true and the history flag is false or absent: with any other
    table the script ends in its tests. *)
Theorem tests_pass_iff (F : dict bool) :
  _tests F = Ok tt <->
  dict_get F "add" = Some true /\ dict_get F "subtract" = Some true /\
  dict_get F "multiply" = Some true /\ dict_get F "divide" = Some true /\
  truthy (dict_get F "history") = false.
Proof.
  unfold _tests, __init__, dict_getitem, _tests_on, history_must_fail, run, get_history.
  destruct (truthy (dict_get F "history"));
  destruct (dict_get F "add") as [[]|];
  destruct (dict_get F "subtract") as [[]|];
  destruct (dict_get F "multiply") as [[]|];
  destruct (dict_get F "divide") as [[]|];
  vm_compute;
  (split; [intros H; try discriminate H; repeat split; reflexivity
          |intros (H1 & H2 & H3 & H4 & H5); try discriminate; reflexivity]).
Qed.





End AgileMore.

(** * More on the command lines *)

Section CLIMore.

Variable float : string -> option spec_float.
Variable float_msg : string -> string.

(** X9: the fixed calculator ends with status 0 exactly when it has three
    arguments, [float] accepts both operands and the operation is [add]
    or [subtract]; with status 2 exactly when it has three arguments,
    [float] accepts both operands and the operation is another name; and
    with status 1 in every other case. *)
Theorem waterfall_exit_status (argv : list string) (out : stdout) :
  let st := exit_status (fst (Waterfall.main float float_msg Waterfall.calc argv out)) in
  (st = 0 <->
     exists prog op a_str b_str,
       argv = [prog; op; a_str; b_str] /\
       is_Some (float a_str) /\ is_Some (float b_str) /\
       (op = "add" \/ op = "subtract")) /\
  (st = 2 <->
     exists prog op a_str b_str,
       argv = [prog; op; a_str; b_str] /\
       is_Some (float a_str) /\ is_Some (float b_str) /\
       op <> "add" /\ op <> "subtract") /\
  (st = 0 \/ st = 1 \/ st = 2).
Proof.
  cbv zeta. rewrite main_calc.
  assert (forall (st : Z) (P0 P2 : Prop),
            (st = 0 /\ P0 /\ ~ P2) \/ (st = 2 /\ P2 /\ ~ P0) \/ (st = 1 /\ ~ P0 /\ ~ P2) ->
            (st = 0 <-> P0) /\ (st = 2 <-> P2) /\ (st = 0 \/ st = 1 \/ st = 2)) as Hdone.
  { intros st P0 P2 [(-> & H0 & H2)|[(-> & H2 & H0)|(-> & H0 & H2)]];
      (repeat split; intros; try lia; try tauto). }
  apply Hdone. clear Hdone. unfold Waterfall.run_cli.
  destruct argv as [|prog [|op [|a_str [|b_str [|extra rest]]]]];
    try (right; right; split; [reflexivity|split; intros (?&?&?&?&[=]&_)]).
  unfold mbind, M_bind, Waterfall.float_arg.
  destruct (float a_str) as [a|] eqn:Ha.
  2:{ right; right. split; [reflexivity|].
      split; intros (?&?&?&?&[= _ _ <- _]&Hs&_); rewrite Ha in Hs;
        destruct Hs; discriminate. }
  destruct (float b_str) as [b|] eqn:Hb.
  2:{ right; right. split; [reflexivity|].
      split; intros (?&?&?&?&[= _ _ _ <-]&_&Hs&_); rewrite Hb in Hs;
        destruct Hs; discriminate. }
  destruct (String.eqb_spec op "add") as [->|Hadd].
  { left. split; [reflexivity|]. split.
    - exists prog, "add", a_str, b_str. rewrite Ha, Hb. eauto 10.
    - intros (?&?&?&?&[= _ <- _ _]&_&_&Hne&_). contradiction Hne. reflexivity. }
  destruct (String.eqb_spec op "subtract") as [->|Hsub].
  { left. split; [reflexivity|]. split.
    - exists prog, "subtract", a_str, b_str. rewrite Ha, Hb. eauto 10.
    - intros (?&?&?&?&[= _ <- _ _]&_&_&_&Hne). contradiction Hne. reflexivity. }
  right; left. split; [reflexivity|]. split.
  - exists prog, op, a_str, b_str. rewrite Ha, Hb. eauto 10.
  - intros (?&?&?&?&[= _ <- _ _]&_&_&[->| ->]); [contradiction Hadd|contradiction Hsub];
      reflexivity.
Qed.

(** X10: with the table of the source, the toggleable calculator ends with
    status 0 unless it has three arguments, the first neither [backlog]
    nor [features], and [float] rejects an operand; it then ends with
    status 1. *)
Theorem agile_exit_status (argv : list string) (out : stdout) :
  let st := exit_status (fst (Agile.main float float_msg Agile.FEATURES argv out)) in
  let bad := exists op a_str b_str,
               drop 1 argv = [op; a_str; b_str] /\
               op <> "backlog" /\ op <> "features" /\
               (float a_str = None \/ float b_str = None) in
  (st = 1 <-> bad) /\ (st = 0 <-> ~ bad).
Proof.
  cbv zeta. rewrite main_FEATURES.
  set (bad := exists op a_str b_str, _).
  assert (forall st : Z, (st = 0 /\ ~ bad) \/ (st = 1 /\ bad) ->
          (st = 1 <-> bad) /\ (st = 0 <-> ~ bad)) as Hdone.
  { intros st [[-> Hn]|[-> Hb]]; (split; split; intros; try lia; try tauto). }
  apply Hdone. clear Hdone.
  unfold Agile.run_cli.
  destruct (drop 1 argv) as [|arg0 rest] eqn:Hargs.
  { left. split; [reflexivity|]. intros (?&?&?&[=]&_). }
  destruct (String.eqb_spec arg0 "backlog") as [->|Hb].
  { left. split; [|intros (?&?&?&[= <- _]&Hne&_); contradiction Hne; reflexivity].
    vm_compute. reflexivity. }
  destruct (String.eqb_spec arg0 "features") as [->|Hf].
  { left. split; [|intros (?&?&?&[= <- _]&_&Hne&_); contradiction Hne; reflexivity].
    vm_compute. reflexivity. }
  destruct rest as [|a_str [|b_str [|extra rest]]];
    try (left; split; [reflexivity|intros (?&?&?&[=]&_)]).
  unfold mbind, M_bind, Agile.float_arg.
  destruct (float a_str) as [a|] eqn:Ha.
  2:{ right. split; [reflexivity|]. exists arg0, a_str, b_str. auto. }
  destruct (float b_str) as [b|] eqn:Hbf.
  2:{ right. split; [reflexivity|]. exists arg0, a_str, b_str. auto. }
  left. split.
  - unfold lift. rewrite init_FEATURES.
    unfold mret, M_ret. cbv beta iota.
    unfold Agile.print_run. rewrite AgileFacts.run_eq.
    pose proof (AgileFacts.init_lookup Agile.FEATURES fresh arg0 init_FEATURES) as Hl.
    destruct (Agile.ops fresh !! arg0) as [f|]; [|reflexivity].
    assert (op_fun arg0 = Some f) as Hfun
      by (destruct (truthy _); [symmetry; exact Hl|discriminate]).
    destruct (op_fun_float arg0 f a b Hfun) as [r ->]. reflexivity.
  - intros (?&?&?&[= <- <- <-]&_&_&[H|H]); congruence.
Qed.

End CLIMore.

(** * Results that are doubles *)

Module Exactness.
Import Rounding.

Lemma Zdigits2_unique (m d : Z) :
  2 ^ (d - 1) <= m < 2 ^ d -> 0 < d -> Zdigits2 m = d.
Proof.
  intros Hm Hd.
  assert (0 < m) as Hpos by (pose proof (Z.pow_pos_nonneg 2 (d - 1)); lia).
  pose proof (Zdigits2_bounds m Hpos) as Hb.
  pose proof (Zdigits2_pos m Hpos) as Hp.
  destruct (Z.lt_trichotomy (Zdigits2 m) d) as [Hlt|[Heq|Hgt]]; [|exact Heq|].
  - exfalso. assert (2 ^ Zdigits2 m <= 2 ^ (d - 1)) by (apply Z.pow_le_mono_r; lia). lia.
  - exfalso. assert (2 ^ d <= 2 ^ (Zdigits2 m - 1)) by (apply Z.pow_le_mono_r; lia). lia.
Qed.

Lemma Zdigits2_mul_pow2 (a k : Z) :
  0 < a -> 0 <= k -> Zdigits2 (a * 2 ^ k) = Zdigits2 a + k.
Proof.
  intros Ha Hk.
  pose proof (Zdigits2_bounds a Ha) as [Hlo Hhi].
  pose proof (Zdigits2_pos a Ha) as Hd.
  assert (0 < 2 ^ k) as Hp by (apply Z.pow_pos_nonneg; lia).
  apply Zdigits2_unique; [|lia].
  replace (Zdigits2 a + k - 1) with (Zdigits2 a - 1 + k) by lia.
  rewrite !Z.pow_add_r by lia. nia.
Qed.

Lemma shr_1_exact (k : Z) :
  0 <= k ->
  shr_1 {| shr_m := 2 * k; shr_r := false; shr_s := false |} =
    {| shr_m := k; shr_r := false; shr_s := false |}.
Proof.
  intros Hk. destruct k as [|p|p]; [reflexivity|reflexivity|lia].
Qed.

Lemma iter_shr_1_exact (p : positive) (k : Z) :
  0 <= k ->
  SpecFloat.iter_pos shr_1 p {| shr_m := k * 2 ^ Zpos p; shr_r := false; shr_s := false |} =
    {| shr_m := k; shr_r := false; shr_s := false |}.
Proof.
  revert k. induction p as [p IH|p IH|]; intros k Hk; cbn [SpecFloat.iter_pos].
  - assert (0 < 2 ^ Zpos p) as Hp by (apply Z.pow_pos_nonneg; lia).
    rewrite pow2_xI.
    replace (k * (2 * (2 ^ Zpos p * 2 ^ Zpos p))) with (2 * (k * 2 ^ Zpos p * 2 ^ Zpos p)) by lia.
    rewrite shr_1_exact by nia. rewrite IH by nia. apply IH, Hk.
  - assert (0 < 2 ^ Zpos p) as Hp by (apply Z.pow_pos_nonneg; lia).
    rewrite pow2_xO, Z.mul_assoc. rewrite IH by nia. apply IH, Hk.
  - change (2 ^ 1) with 2. rewrite (Z.mul_comm k 2). apply shr_1_exact, Hk.
Qed.

Lemma bounded_inv (m : positive) (e : Z) :
  bounded prec emax m e = true ->
  fexp prec emax (Zdigits2 (Zpos m) + e) = e /\ e <= emax - prec.
Proof.
  unfold bounded, canonical_mantissa. intros [H1 H2]%andb_prop.
  apply Z.eqb_eq in H1. apply Z.leb_le in H2. auto.
Qed.

(** Rounding [m * 2^e] when it is the double [mr * 2^er] returns that
    double. *)
Lemma binary_round_aux_exact (sx : bool) (m e : Z) (mr : positive) (er : Z) :
  bounded prec emax mr er = true ->
  e <= er -> m = Zpos mr * 2 ^ (er - e) ->
  binary_round_aux prec emax sx m e loc_Exact = S754_finite sx mr er.
Proof.
  intros [Hc Hb]%bounded_inv He ->.
  assert (Zdigits2 (Zpos mr * 2 ^ (er - e)) + e = Zdigits2 (Zpos mr) + er) as Hd
    by (rewrite Zdigits2_mul_pow2 by lia; lia).
  assert (forall ms, shr_m ms = Zpos mr ->
            (let '(mrs'', e'') :=
               shr_fexp prec emax (round_nearest_even (shr_m ms) loc_Exact) er loc_Exact in
             match shr_m mrs'' with
             | Z0 => S754_zero sx
             | Zpos m0 => if e'' <=? emax - prec then S754_finite sx m0 e''
                          else S754_infinity sx
             | Zneg _ => S754_nan
             end) = S754_finite sx mr er) as Hsecond.
  { intros ms ->. cbn [round_nearest_even]. unfold shr_fexp.
    rewrite Hc, Z.sub_diag. cbn [shr shr_record_of_loc shr_m].
    replace (er <=? emax - prec) with true by (symmetry; apply Z.leb_le; exact Hb).
    reflexivity. }
  unfold binary_round_aux, shr_fexp at 1. rewrite Hd, Hc.
  cbn [shr_record_of_loc]. unfold shr.
  destruct (er - e) as [|p|p] eqn:Hn; [| |lia].
  - replace e with er by lia. cbn [loc_of_shr_record shr_m].
    rewrite Z.pow_0_r, Z.mul_1_r.
    apply (Hsecond {| shr_m := Zpos mr; shr_r := false; shr_s := false |}). reflexivity.
  - rewrite iter_shr_1_exact by lia. replace (e + Zpos p) with er by lia.
    cbn [loc_of_shr_record].
    apply (Hsecond {| shr_m := Zpos mr; shr_r := false; shr_s := false |}). reflexivity.
Qed.

Local Open Scope Q_scope.

(** Two products [a * 2^e] with the same value. *)
Lemma value_eq_Z (a b e e' : Z) :
  inject_Z a * 2 ^ e == inject_Z b * 2 ^ e' -> (e <= e')%Z ->
  a = (b * 2 ^ (e' - e))%Z.
Proof.
  intros H He.
  rewrite <- (align_value b e' e He) in H.
  apply Qmult_inj_r in H; [|pose proof (pow2_pos e); lra].
  exact (proj1 (inject_Z_injective _ _) H).
Qed.

(** Equal values have the same magnitude. *)
Lemma value_eq_digits (a b : positive) (e e' : Z) :
  inject_Z (Zpos a) * 2 ^ e == inject_Z (Zpos b) * 2 ^ e' ->
  (Zdigits2 (Zpos a) + e = Zdigits2 (Zpos b) + e')%Z.
Proof.
  intros H. destruct (Z_le_gt_dec e e') as [He|He].
  - rewrite (value_eq_Z _ _ _ _ H He), Zdigits2_mul_pow2 by lia. lia.
  - symmetry in H. rewrite (value_eq_Z _ _ _ _ H ltac:(lia)), Zdigits2_mul_pow2 by lia. lia.
Qed.

Lemma binary_round_exact (sx : bool) (mx : positive) (ex : Z) (mr : positive) (er : Z) :
  bounded prec emax mr er = true ->
  inject_Z (Zpos mx) * 2 ^ ex == inject_Z (Zpos mr) * 2 ^ er ->
  binary_round prec emax sx mx ex = S754_finite sx mr er.
Proof.
  intros Hbd Hv. pose proof (bounded_inv mr er Hbd) as [Hc _].
  pose proof (value_eq_digits _ _ _ _ Hv) as Hd.
  unfold binary_round.
  change (Zpos (digits2_pos mx)) with (Zdigits2 (Zpos mx)).
  rewrite Hd, Hc. unfold shl_align.
  destruct (er - ex)%Z as [|p|p] eqn:Hn.
  - apply binary_round_aux_exact; [exact Hbd|lia|].
    apply value_eq_Z; [exact Hv|lia].
  - apply binary_round_aux_exact; [exact Hbd|lia|].
    apply value_eq_Z; [exact Hv|lia].
  - symmetry in Hv. apply value_eq_Z in Hv; [|lia].
    replace (ex - er)%Z with (Zpos p) in Hv by lia.
    rewrite <- pos_iter_xO in Hv. injection Hv as <-.
    apply binary_round_aux_exact; [exact Hbd|lia|].
    rewrite Z.sub_diag, Z.pow_0_r. lia.
Qed.

Lemma pos_value_opp_ne (m m' : positive) (e e' : Z) :
  ~ inject_Z (Zpos m) * 2 ^ e == - (inject_Z (Zpos m') * 2 ^ e').
Proof.
  pose proof (pos_value_pos m e). pose proof (pos_value_pos m' e'). lra.
Qed.

(** A double is determined by its value. *)
Lemma F2Q_inj (s s' : bool) (m m' : positive) (e e' : Z) :
  bounded prec emax m e = true -> bounded prec emax m' e' = true ->
  F2Q s m e == F2Q s' m' e' -> S754_finite s m e = S754_finite s' m' e'.
Proof.
  intros [Hc _]%bounded_inv [Hc' _]%bounded_inv H.
  rewrite !F2Q_eq in H.
  assert (s = s' /\ inject_Z (Zpos m) * 2 ^ e == inject_Z (Zpos m') * 2 ^ e') as [-> Hv].
  { pose proof (pos_value_pos m e). pose proof (pos_value_pos m' e').
    destruct s, s'; cbn in H; (split; [reflexivity || (exfalso; lra)|lra]). }
  pose proof (value_eq_digits _ _ _ _ Hv) as Hd.
  assert (e = e') as -> by (rewrite <- Hc, <- Hc', Hd; reflexivity).
  apply value_eq_Z in Hv; [|lia]. rewrite Z.sub_diag, Z.pow_0_r, Z.mul_1_r in Hv.
  injection Hv as ->. reflexivity.
Qed.

Lemma binary_normalize_exact (m e : Z) (sr : bool) (mr : positive) (er : Z) :
  bounded prec emax mr er = true ->
  inject_Z m * 2 ^ e == F2Q sr mr er ->
  binary_normalize prec emax m e false = S754_finite sr mr er.
Proof.
  intros Hbd H. rewrite F2Q_eq in H.
  pose proof (pos_value_pos mr er) as Hr.
  destruct m as [|p|p]; cbn [binary_normalize].
  - exfalso. change (inject_Z 0) with 0 in H. destruct sr; cbn in H; lra.
  - pose proof (pos_value_pos p e) as Hp.
    destruct sr; cbn in H; [exfalso; lra|].
    apply binary_round_exact; assumption.
  - assert (inject_Z (Zneg p) * 2 ^ e == - (inject_Z (Zpos p) * 2 ^ e)) as Hneg.
    { change (Zneg p) with (- Zpos p)%Z. rewrite inject_Z_opp. ring. }
    pose proof (pos_value_pos p e) as Hp. rewrite Hneg in H.
    destruct sr; cbn in H; [|exfalso; lra].
    apply binary_round_exact; [assumption|lra].
Qed.

Lemma SFadd_exact (a b : spec_float) (sr : bool) (mr : positive) (er : Z) :
  is_finite a = true -> is_finite b = true -> is_double a -> is_double b ->
  is_double (S754_finite sr mr er) ->
  F2Q sr mr er == SF2Q a + SF2Q b ->
  SFadd prec emax a b = S754_finite sr mr er.
Proof.
  unfold is_double. intros Ha Hb Hva Hvb Hvr Hx.
  pose proof (F2Q_nonzero sr mr er) as Hnz.
  destruct a as [sa|sa| |sa ma ea]; try discriminate;
  destruct b as [sb|sb| |sb mb eb]; try discriminate; cbn [SFadd SF2Q valid_binary] in *.
  - exfalso. apply Hnz. rewrite Hx. ring.
  - apply F2Q_inj; [assumption|assumption|]. rewrite Hx. ring.
  - apply F2Q_inj; [assumption|assumption|]. rewrite Hx. ring.
  - apply binary_normalize_exact; [assumption|]. rewrite Hx.
    rewrite (F2Q_aligned sa ma ea (Z.min ea eb)) by lia.
    rewrite (F2Q_aligned sb mb eb (Z.min ea eb)) by lia.
    rewrite inject_Z_plus. ring.
Qed.

Lemma F2Q_negb (s : bool) (m : positive) (e : Z) : F2Q (negb s) m e == - F2Q s m e.
Proof. rewrite !F2Q_eq. destruct s; cbn; ring. Qed.

Lemma SFsub_exact (a b : spec_float) (sr : bool) (mr : positive) (er : Z) :
  is_finite a = true -> is_finite b = true -> is_double a -> is_double b ->
  is_double (S754_finite sr mr er) ->
  F2Q sr mr er == SF2Q a - SF2Q b ->
  SFsub prec emax a b = S754_finite sr mr er.
Proof.
  unfold is_double. intros Ha Hb Hva Hvb Hvr Hx.
  pose proof (F2Q_nonzero sr mr er) as Hnz.
  destruct a as [sa|sa| |sa ma ea]; try discriminate;
  destruct b as [sb|sb| |sb mb eb]; try discriminate; cbn [SFsub SF2Q valid_binary] in *.
  - exfalso. apply Hnz. rewrite Hx. ring.
  - apply F2Q_inj; [assumption|assumption|]. rewrite Hx, F2Q_negb. ring.
  - apply F2Q_inj; [assumption|assumption|]. rewrite Hx. ring.
  - apply binary_normalize_exact; [assumption|]. rewrite Hx.
    rewrite (F2Q_aligned sa ma ea (Z.min ea eb)) by lia.
    rewrite (F2Q_aligned sb mb eb (Z.min ea eb)) by lia.
    unfold Z.sub. rewrite inject_Z_plus, inject_Z_opp. ring.
Qed.

Lemma xorb_sign (sa sb sr : bool) (x y : Q) :
  0 < x -> 0 < y -> cond_Qopp sr y == cond_Qopp (xorb sa sb) x ->
  sr = xorb sa sb /\ y == x.
Proof.
  intros Hx Hy H. destruct sr, (xorb sa sb); cbn in H;
    (split; [reflexivity || (exfalso; lra)|lra]).
Qed.

Lemma digits_mul_ge (a b : positive) :
  (Zdigits2 (Zpos a) + Zdigits2 (Zpos b) - 1 <= Zdigits2 (Zpos (a * b)))%Z.
Proof.
  pose proof (Zdigits2_bounds (Zpos a) ltac:(lia)) as [Ha _].
  pose proof (Zdigits2_bounds (Zpos b) ltac:(lia)) as [Hb _].
  pose proof (Zdigits2_bounds (Zpos (a * b)) ltac:(lia)) as [_ Hab].
  pose proof (Zdigits2_pos (Zpos a) ltac:(lia)).
  pose proof (Zdigits2_pos (Zpos b) ltac:(lia)).
  pose proof (Zdigits2_pos (Zpos (a * b)) ltac:(lia)).
  assert (2 ^ (Zdigits2 (Zpos a) - 1 + (Zdigits2 (Zpos b) - 1))
          < 2 ^ Zdigits2 (Zpos (a * b)))%Z as Hlt.
  { rewrite Z.pow_add_r by lia. rewrite Pos2Z.inj_mul in Hab.
    apply Z.le_lt_trans with (2 := Hab).
    apply Z.mul_le_mono_nonneg; try assumption; apply Z.pow_nonneg; lia. }
  apply Z.pow_lt_mono_r_iff in Hlt; lia.
Qed.

Lemma digits_mul_le (a b : positive) :
  (Zdigits2 (Zpos (a * b)) <= Zdigits2 (Zpos a) + Zdigits2 (Zpos b))%Z.
Proof.
  pose proof (Zdigits2_bounds (Zpos a) ltac:(lia)) as [_ Ha].
  pose proof (Zdigits2_bounds (Zpos b) ltac:(lia)) as [_ Hb].
  pose proof (Zdigits2_pos (Zpos a) ltac:(lia)).
  pose proof (Zdigits2_pos (Zpos b) ltac:(lia)).
  apply Zdigits2_le; [lia|]. rewrite Z.pow_add_r, Pos2Z.inj_mul by lia.
  split; [lia|]. apply Z.mul_lt_mono_nonneg; lia.
Qed.

Lemma SFmul_exact (a b : spec_float) (sr : bool) (mr : positive) (er : Z) :
  is_finite a = true -> is_finite b = true -> is_double a -> is_double b ->
  is_double (S754_finite sr mr er) ->
  F2Q sr mr er == SF2Q a * SF2Q b ->
  SFmul prec emax a b = S754_finite sr mr er.
Proof.
  unfold is_double. intros Ha Hb Hva Hvb Hvr Hx.
  pose proof (F2Q_nonzero sr mr er) as Hnz.
  destruct a as [sa|sa| |sa ma ea]; try discriminate;
  destruct b as [sb|sb| |sb mb eb]; try discriminate; cbn [SFmul SF2Q valid_binary] in *;
    try (exfalso; apply Hnz; rewrite Hx; ring).
  assert (F2Q sa ma ea * F2Q sb mb eb ==
          cond_Qopp (xorb sa sb) (inject_Z (Zpos (ma * mb)) * 2 ^ (ea + eb))) as Hprod.
  { rewrite !F2Q_eq, cond_Qopp_xorb. apply cond_Qopp_proper.
    rewrite Pos2Z.inj_mul, inject_Z_mult, pow2_add. ring. }
  rewrite Hprod, F2Q_eq in Hx.
  apply xorb_sign in Hx as [-> Hv]; try apply pos_value_pos.
  symmetry in Hv.
  pose proof (value_eq_digits _ _ _ _ Hv) as Hd.
  pose proof (bounded_inv _ _ Hva) as [Hca _].
  pose proof (bounded_inv _ _ Hvb) as [Hcb _].
  pose proof (bounded_inv _ _ Hvr) as [Hcr _].
  pose proof (digits_mul_ge ma mb) as Hge.
  pose proof (Zdigits2_pos (Zpos ma) ltac:(lia)).
  pose proof (Zdigits2_pos (Zpos mb) ltac:(lia)).
  rewrite fexp_eq in Hca, Hcb, Hcr.
  assert (ea + eb <= er)%Z as He by lia.
  apply binary_round_aux_exact; [assumption|exact He|].
  apply value_eq_Z; assumption.
Qed.

Lemma new_location_zero (n : Z) : new_location n 0 = loc_Exact.
Proof. unfold new_location. destruct (Z.even n); reflexivity. Qed.

Lemma SFdiv_core_eq (mx my : positive) (ex ey : Z) :
  exists e' s,
    SFdiv_core_binary prec emax (Zpos mx) ex (Zpos my) ey =
      ((Zpos mx * 2 ^ s / Zpos my)%Z, e',
       new_location (Zpos my) ((Zpos mx * 2 ^ s) mod Zpos my)%Z) /\
    (0 <= s)%Z /\ (ex - ey = s + e')%Z /\
    (e' <= fexp prec emax (Zdigits2 (Zpos mx) + ex - (Zdigits2 (Zpos my) + ey)))%Z.
Proof.
  unfold SFdiv_core_binary.
  set (e' := Z.min (fexp prec emax (Zdigits2 (Zpos mx) + ex - (Zdigits2 (Zpos my) + ey)))
                   (ex - ey)).
  set (s := (ex - ey - e')%Z).
  assert (0 <= s)%Z as Hs by (unfold s, e'; lia).
  set (m' := match s with
             | Zpos _ => Z.shiftl (Zpos mx) s
             | Z0 => Zpos mx
             | Zneg _ => Z0
             end).
  assert (m' = Zpos mx * 2 ^ s)%Z as Hm'.
  { unfold m'. destruct s as [|p|p] eqn:Hp; [rewrite Z.pow_0_r; lia| |lia].
    apply Z.shiftl_mul_pow2. lia. }
  exists e', s. rewrite <- Hm'.
  assert (fst (Z.div_eucl m' (Zpos my)) = m' / Zpos my)%Z as Hq by reflexivity.
  assert (snd (Z.div_eucl m' (Zpos my)) = m' mod Zpos my)%Z as Hr by reflexivity.
  destruct (Z.div_eucl m' (Zpos my)) as [q r]. cbn [fst snd] in Hq, Hr. subst q r.
  split; [reflexivity|]. split; [exact Hs|]. split; [unfold s; lia|unfold e'; lia].
Qed.

Lemma SFdiv_exact (a b : spec_float) (sr : bool) (mr : positive) (er : Z) :
  is_finite a = true -> is_finite b = true -> is_zero b = false ->
  is_double (S754_finite sr mr er) ->
  F2Q sr mr er == SF2Q a / SF2Q b ->
  SFdiv prec emax a b = S754_finite sr mr er.
Proof.
  unfold is_double. intros Ha Hb Hbz Hvr Hx.
  pose proof (F2Q_nonzero sr mr er) as Hnz.
  destruct a as [sa|sa| |sa ma ea]; try discriminate;
  destruct b as [sb|sb| |sb mb eb]; try discriminate; cbn [SFdiv SF2Q valid_binary] in *.
  - exfalso. apply Hnz. rewrite Hx. unfold Qdiv. ring.
  - set (A := inject_Z (Zpos ma) * 2 ^ ea) in *.
    set (B := inject_Z (Zpos mb) * 2 ^ eb) in *.
    assert (0 < A) as HA by apply pos_value_pos.
    assert (0 < B) as HB by apply pos_value_pos.
    assert (F2Q sa ma ea / F2Q sb mb eb == cond_Qopp (xorb sa sb) (A / B)) as Hquot.
    { rewrite !F2Q_eq. fold A B. destruct sa, sb; cbn; field; lra. }
    assert (0 < A / B) as Hpos by (apply Qlt_shift_div_l; [exact HB|lra]).
    rewrite Hquot, F2Q_eq in Hx.
    apply xorb_sign in Hx as [-> Hv]; [|exact Hpos|apply pos_value_pos].
    (* A = (mr * mb) * 2^(er + eb) *)
    assert (A == inject_Z (Zpos (mr * mb)) * 2 ^ (er + eb)) as HAv.
    { rewrite Pos2Z.inj_mul, inject_Z_mult, pow2_add.
      assert (A == A / B * B) as -> by (field; lra).
      rewrite <- Hv. unfold B. ring. }
    pose proof (value_eq_digits _ _ _ _ HAv) as Hd.
    pose proof (digits_mul_le mr mb) as Hle.
    pose proof (bounded_inv _ _ Hvr) as [Hcr _].
    destruct (SFdiv_core_eq ma mb ea eb) as (e' & s & -> & Hs & He & He').
    rewrite fexp_eq in Hcr, He'.
    assert (e' <= er)%Z as Hee by lia.
    assert (Zpos ma * 2 ^ s = Zpos mr * 2 ^ (er - e') * Zpos mb)%Z as Hm.
    { assert (0 < 2 ^ s)%Z by (apply Z.pow_pos_nonneg; lia).
      assert (inject_Z (Zpos ma * 2 ^ s) * 2 ^ (e' + eb) ==
              inject_Z (Zpos (mr * mb)) * 2 ^ (er + eb)) as H1.
      { rewrite <- HAv. unfold A. rewrite scale_shift by lia.
        replace (e' + eb + s)%Z with ea by lia. reflexivity. }
      apply value_eq_Z in H1; [|lia]. rewrite H1, Pos2Z.inj_mul.
      replace (er + eb - (e' + eb))%Z with (er - e')%Z by lia. lia. }
    rewrite Hm. rewrite Z.div_mul, Z.mod_mul by lia.
    rewrite new_location_zero.
    apply binary_round_aux_exact; [assumption|exact Hee|reflexivity].
Qed.

Local Close Scope Q_scope.

(** ** Results that are not zero, results that overflow *)

(** When the floor [m / 2^n] that rounding keeps is not 0, the result
    is not a zero, and it is the infinity as soon as the exponent [e + n]
    is above the largest exponent of a double. *)
Lemma binary_round_aux_large (sx : bool) (m e : Z) (l : location) :
  0 <= m -> 0 < m / 2 ^ rnd_shift m e ->
  is_zero (binary_round_aux prec emax sx m e l) = false /\
  (emax - prec < e + rnd_shift m e ->
   binary_round_aux prec emax sx m e l = S754_infinity sx).
Proof.
  intros Hm Hfl. unfold binary_round_aux.
  destruct (shr_fexp_spec m e l Hm) as (mrs & -> & Hmrs & _).
  set (n := rnd_shift m e) in *. set (E := e + n) in *.
  set (m1 := round_nearest_even (shr_m mrs) (loc_of_shr_record mrs)).
  assert (0 <= n) as Hn by (unfold n, rnd_shift; lia).
  assert (m / 2 ^ n <= m1 <= m / 2 ^ n + 1) as Hm1
    by (unfold m1; rewrite <- Hmrs; apply round_nearest_even_bounds).
  assert (-1074 <= E) as HEmin.
  { unfold E, n, rnd_shift. rewrite fexp_eq. lia. }
  assert (m / 2 ^ n < 2 ^ 53) as Hlt.
  { apply floor_shift_lt; [lia|lia|]. unfold n, rnd_shift. rewrite fexp_eq. lia. }
  destruct (shr_fexp_spec m1 E loc_Exact ltac:(lia)) as (mrs2 & -> & Hmrs2 & _).
  destruct (Z.eq_dec m1 (2 ^ 53)) as [Hcarry|Hnocarry].
  - assert (Zdigits2 m1 = 54) as Hd by (rewrite Hcarry; reflexivity).
    assert (rnd_shift m1 E = 1) as Hs by (unfold rnd_shift; rewrite Hd, fexp_eq; lia).
    rewrite Hs in *. rewrite Hmrs2, Hcarry.
    change (2 ^ 53 / 2 ^ 1) with (Zpos (2 ^ 52)). cbv iota beta.
    destruct (Z.leb_spec (E + 1) (emax - prec)); (split; [reflexivity|intros; lia || reflexivity]).
  - assert (Zdigits2 m1 <= 53) as Hd by (apply Zdigits2_le; lia).
    assert (rnd_shift m1 E = 0) as Hs by (unfold rnd_shift; rewrite fexp_eq; lia).
    rewrite Hs in *. rewrite Hmrs2, Z.pow_0_r, Z.div_1_r, Z.add_0_r.
    destruct m1 as [|p|p] eqn:Hp; [lia| |lia].
    destruct (Z.leb_spec E (emax - prec)); (split; [reflexivity|intros; lia || reflexivity]).
Qed.

(** The conversion of a non-zero [int]: never a zero, and an
    [OverflowError] from 2^1024 on. *)
Lemma binary_round_int (sx : bool) (p : positive) :
  is_zero (binary_round prec emax sx p 0) = false /\
  (2 ^ 1024 <= Zpos p -> binary_round prec emax sx p 0 = S754_infinity sx).
Proof.
  unfold binary_round.
  destruct (shl_align_spec p 0 (fexp prec emax (Zpos (digits2_pos p) + 0)))
    as (mz & ez & -> & Hez & Hmz & Hshift).
  change (Zpos (digits2_pos p)) with (Zdigits2 (Zpos p)) in Hshift.
  rewrite Z.add_0_r, fexp_eq in Hshift.
  assert (0 < 2 ^ (0 - ez)) as Hp by (apply Z.pow_pos_nonneg; lia).
  assert (Zdigits2 (Zpos mz) = Zdigits2 (Zpos p) + (0 - ez)) as Hd
    by (rewrite Hmz; apply Zdigits2_mul_pow2; lia).
  pose proof (Zdigits2_bounds (Zpos mz) ltac:(lia)) as [Hlo Hhi].
  pose proof (Zdigits2_pos (Zpos p) ltac:(lia)) as Hdp.
  set (n := rnd_shift (Zpos mz) ez).
  assert (0 <= n <= Zdigits2 (Zpos mz) - 1) as Hn
    by (unfold n, rnd_shift; rewrite fexp_eq; lia).
  assert (0 < Zpos mz / 2 ^ n) as Hfl.
  { apply Z.div_str_pos. split; [apply Z.pow_pos_nonneg; lia|].
    apply Z.le_trans with (2 := Hlo). apply Z.pow_le_mono_r; lia. }
  destruct (binary_round_aux_large sx (Zpos mz) ez loc_Exact ltac:(lia) Hfl) as [Hnz Hov].
  split; [exact Hnz|]. intros Hbig. apply Hov. fold n.
  assert (1025 <= Zdigits2 (Zpos p)) as Hd1025.
  { pose proof (Zdigits2_bounds (Zpos p) ltac:(lia)) as [_ Hh].
    destruct (Z_lt_le_dec (Zdigits2 (Zpos p)) 1025) as [Hlt|]; [exfalso|lia].
    assert (2 ^ Zdigits2 (Zpos p) <= 2 ^ 1024) by (apply Z.pow_le_mono_r; lia). lia. }
  unfold n, rnd_shift. rewrite fexp_eq. unfold emax, prec. lia.
Qed.

Lemma float_of_int_cases (z : Z) :
  z <> 0 ->
  (exists f, float_of_int z = Ok f /\ is_zero f = false) \/
  float_of_int z = Raise (OverflowError "int too large to convert to float").
Proof.
  intros Hz. unfold float_of_int.
  destruct z as [|p|p]; [contradiction Hz; reflexivity| |]; cbn [binary_normalize].
  - destruct (binary_round_int false p) as [Hnz _].
    destruct (binary_round prec emax false p 0) as [s|s| |s m e] eqn:Hr;
      try discriminate; eauto.
  - destruct (binary_round_int true p) as [Hnz _].
    destruct (binary_round prec emax true p 0) as [s|s| |s m e] eqn:Hr;
      try discriminate; eauto.
Qed.

Lemma float_of_int_overflow (z : Z) :
  2 ^ 1024 <= Z.abs z ->
  float_of_int z = Raise (OverflowError "int too large to convert to float").
Proof.
  intros Hz. unfold float_of_int.
  destruct z as [|p|p]; [cbn in Hz; lia| |]; cbn [binary_normalize].
  - rewrite (proj2 (binary_round_int false p)) by (cbn in Hz; lia). reflexivity.
  - rewrite (proj2 (binary_round_int true p)) by (cbn in Hz; lia). reflexivity.
Qed.

End Exactness.

(** * More on the results of the operations *)

Section ResultsMore.
Import Agile AgileFacts Rounding Exactness.

Lemma py_ne_float (f : spec_float) : py_ne (VFloat f) (VInt 0) = negb (is_zero f).
Proof.
  destruct f as [s|s| |s m e]; try reflexivity.
  unfold py_ne, py_eq. cbn.
  destruct (Qeq_bool (F2Q s m e) (inject_Z 0)) eqn:H; [|reflexivity].
  apply Qeq_bool_iff in H. contradiction (F2Q_nonzero s m e H).
Qed.

Lemma py_ne_int (z : Z) : py_ne (VInt z) (VInt 0) = negb (z =? 0).
Proof. destruct z; reflexivity. Qed.

Lemma init_divide (F : dict bool) (c : AgileCalculator) (op : string) :
  __init__ F = Ok c -> is_Some (ops c !! op) ->
  exists f, ops c !! op = Some f /\ op_fun op = Some f.
Proof.
  intros Hinit [f Hf]. exists f. split; [exact Hf|].
  rewrite (init_lookup F c op Hinit) in Hf. destruct (truthy _); [exact Hf|discriminate].
Qed.

(** What [a / b if b != 0 else float("inf")] gives: a float, or the
    [OverflowError] of an [int] too large for a double. *)
Lemma safe_divide_cases (a b : value) :
  (exists r, safe_divide a b = Ok (VFloat r)) \/
  (exists msg, safe_divide a b = Raise (OverflowError msg)).
Proof.
  unfold safe_divide. destruct b as [y|f].
  - rewrite py_ne_int. destruct (Z.eqb_spec y 0) as [->|Hy]; cbn [negb]; [eauto|].
    destruct a as [x|x]; cbn [py_truediv].
    + rewrite (proj2 (Z.eqb_neq y 0) Hy).
      destruct (SFdiv prec emax (Z2SF x) (Z2SF y)); eauto.
    + cbn. destruct (float_of_int_cases y Hy) as [(g & -> & Hg)| ->]; cbn; [|eauto].
      destruct g; try discriminate; eauto.
  - rewrite py_ne_float. destruct (is_zero f) eqn:Hf; cbn [negb]; [eauto|].
    destruct a as [x|x]; cbn [py_truediv to_float].
    + unfold float_of_int.
      destruct (binary_normalize prec emax x 0 false); cbn; eauto;
        destruct f; try discriminate; eauto.
    + cbn. destruct f; try discriminate; eauto.
Qed.

(** X11: [divide] is safe for all numbers, [int] or [float], finite or not:
    on a divisor that is the integer 0 or a float zero of either sign it
    returns positive infinity whatever the dividend, and on any operands
    it returns a float or raises the [OverflowError] of an [int] too
    large for a double, never [ZeroDivisionError]. *)
Theorem divide_safe (F F' : dict bool) (c : AgileCalculator) (a b : value) :
  __init__ F = Ok c ->
  is_Some (ops c !! "divide") ->
  (b = VInt 0 \/ (exists s, b = VFloat (S754_zero s)) ->
     fst (run F' "divide" a b c) = Ok (VFloat inf)) /\
  ((exists r, fst (run F' "divide" a b c) = Ok (VFloat r)) \/
   (exists msg, fst (run F' "divide" a b c) = Raise (OverflowError msg))).
Proof.
  intros Hinit Hen.
  destruct (init_divide F c "divide" Hinit Hen) as (f & Hf & [= <-]).
  rewrite run_eq, Hf. split.
  - intros [->|[s ->]]; reflexivity.
  - destruct (safe_divide_cases a b) as [[r ->]|[msg ->]]; cbn; eauto.
Qed.

Lemma divide_safe_witness :
  fst (run FEATURES "divide" (VFloat S754_nan) (VFloat (S754_zero true)) fresh)
    = Ok (VFloat inf).
Proof.
  apply (proj1 (divide_safe FEATURES FEATURES fresh (VFloat S754_nan)
                  (VFloat (S754_zero true)) eq_refl (ex_intro _ safe_divide eq_refl))).
  right. exists true. reflexivity.
Defined.

(** X12: an [int] of magnitude 2^1024 or more cannot be an operand beside a
    [float]: the call raises [OverflowError] and leaves the instance as
    it was (for [divide] with the [int] as dividend, when the divisor is
    not a zero). *)
Theorem run_int_overflow (F F' : dict bool) (c : AgileCalculator) (op : string)
    (z : Z) (f : spec_float) :
  __init__ F = Ok c ->
  is_Some (ops c !! op) ->
  2 ^ 1024 <= Z.abs z ->
  ((op = "divide" -> is_zero f = false) ->
     run F' op (VInt z) (VFloat f) c =
       (Raise (OverflowError "int too large to convert to float"), c)) /\
  run F' op (VFloat f) (VInt z) c =
    (Raise (OverflowError "int too large to convert to float"), c).
Proof.
  intros Hinit Hen Hz.
  destruct (init_divide F c op Hinit Hen) as (g & Hg & Hop).
  pose proof (float_of_int_overflow z Hz) as Hov.
  assert (z <> 0) as Hz0 by lia.
  rewrite !run_eq, Hg. unfold op_fun in Hop.
  destruct (String.eqb_spec op "add") as [->|_];
    [injection Hop as <-; cbn; rewrite Hov; split; reflexivity|].
  destruct (String.eqb_spec op "subtract") as [->|_];
    [injection Hop as <-; cbn; rewrite Hov; split; reflexivity|].
  destruct (String.eqb_spec op "multiply") as [->|_];
    [injection Hop as <-; cbn; rewrite Hov; split; reflexivity|].
  destruct (String.eqb_spec op "divide") as [->|_]; [|discriminate].
  injection Hop as <-. unfold safe_divide. split.
  - intros Hf. rewrite py_ne_float, (Hf eq_refl). cbn. rewrite Hov. reflexivity.
  - rewrite py_ne_int, (proj2 (Z.eqb_neq z 0) Hz0). cbn. rewrite Hov. reflexivity.
Qed.

Lemma run_int_overflow_witness :
  run FEATURES_history_on "add" (VFloat (S754_zero false)) (VInt (2 ^ 1024)) fresh =
    (Raise (OverflowError "int too large to convert to float"), fresh).
Proof.
  apply (proj2 (run_int_overflow FEATURES FEATURES_history_on fresh "add" (2 ^ 1024)
                  (S754_zero false) eq_refl (ex_intro _ py_add eq_refl) ltac:(reflexivity))).
Defined.

(** X13: on finite doubles, when the mathematically correct result is itself
    the value of a double other than zero, [run] returns that double:
    nothing is lost to rounding. *)
Theorem run_exact_when_representable (F F' : dict bool) (c : AgileCalculator) (op : string)
    (a b r : spec_float) (x : Q) :
  __init__ F = Ok c ->
  is_Some (ops c !! op) ->
  is_finite a = true -> is_finite b = true -> is_double a -> is_double b ->
  (op = "divide" -> is_zero b = false) ->
  is_finite r = true -> is_zero r = false -> is_double r ->
  exact op (SF2Q a) (SF2Q b) = Some x ->
  (SF2Q r == x)%Q ->
  fst (run F' op (VFloat a) (VFloat b) c) = Ok (VFloat r).
Proof.
  intros Hinit Hen Ha Hb Hda Hdb Hdiv Hr Hrz Hdr Hx Hv.
  destruct (init_divide F c op Hinit Hen) as (g & Hg & Hop).
  destruct r as [s|s| |sr mr er]; try discriminate. cbn [SF2Q] in Hv.
  rewrite run_eq, Hg. unfold op_fun in Hop. unfold exact in Hx.
  destruct (String.eqb_spec op "add") as [->|_].
  { injection Hop as <-. injection Hx as <-. cbn.
    rewrite (SFadd_exact a b sr mr er); auto. }
  destruct (String.eqb_spec op "subtract") as [->|_].
  { injection Hop as <-. injection Hx as <-. cbn.
    rewrite (SFsub_exact a b sr mr er); auto. }
  destruct (String.eqb_spec op "multiply") as [->|_].
  { injection Hop as <-. injection Hx as <-. cbn.
    rewrite (SFmul_exact a b sr mr er); auto. }
  destruct (String.eqb_spec op "divide") as [->|_]; [|discriminate].
  injection Hop as <-. injection Hx as <-.
  rewrite (safe_divide_float a b Hb), (Hdiv eq_refl).
  rewrite (SFdiv_exact a b sr mr er); auto.
Qed.

Lemma run_exact_when_representable_witness :
  fst (run FEATURES "divide"
         (VFloat (S754_finite false 5629499534213120 (-49)))
         (VFloat (S754_finite false 4503599627370496 (-50))) fresh)
    = Ok (VFloat (S754_finite false 5629499534213120 (-51))).
Proof.
  apply (run_exact_when_representable FEATURES FEATURES fresh "divide"
           (S754_finite false 5629499534213120 (-49))
           (S754_finite false 4503599627370496 (-50))
           (S754_finite false 5629499534213120 (-51))
           (F2Q false 5629499534213120 (-49) / F2Q false 4503599627370496 (-50))%Q);
    try reflexivity.
  exists safe_divide. reflexivity.
Defined.

(** X14: the fixed calculator on finite doubles: when the exact sum, or the
    exact difference, is the value of a double other than zero, [add],
    or [subtract], returns that double. *)
Theorem calculator_exact_when_representable (a b r : spec_float) :
  is_finite a = true -> is_finite b = true -> is_double a -> is_double b ->
  is_finite r = true -> is_zero r = false -> is_double r ->
  ((SF2Q r == SF2Q a + SF2Q b)%Q ->
     Waterfall.add Waterfall.calc (VFloat a) (VFloat b) = Ok (VFloat r)) /\
  ((SF2Q r == SF2Q a - SF2Q b)%Q ->
     Waterfall.subtract Waterfall.calc (VFloat a) (VFloat b) = Ok (VFloat r)).
Proof.
  intros Ha Hb Hda Hdb Hr Hrz Hdr.
  destruct r as [s|s| |sr mr er]; try discriminate. cbn [SF2Q].
  split; intros Hv; cbn.
  - rewrite (SFadd_exact a b sr mr er); auto.
  - rewrite (SFsub_exact a b sr mr er); auto.
Qed.

Lemma calculator_exact_when_representable_witness :
  Waterfall.add Waterfall.calc
    (VFloat (S754_finite false 5629499534213120 (-50)))
    (VFloat (S754_finite false 6755399441055744 (-51)))
  = Ok (VFloat (S754_finite false 4503599627370496 (-49))).
Proof.
  apply (proj1 (calculator_exact_when_representable
                  (S754_finite false 5629499534213120 (-50))
                  (S754_finite false 6755399441055744 (-51))
                  (S754_finite false 4503599627370496 (-49))
                  eq_refl eq_refl eq_refl eq_refl eq_refl eq_refl eq_refl)).
  reflexivity.
Defined.

End ResultsMore.
